(** * tcp_epoll_server.cpp: the epoll relay server, embedded and verified

    The class [TCP_Server] of [src/tcp_epoll_server.cpp] is embedded as
    state-passing functions over a pair of the object's members and a small
    model of the kernel's descriptor table.  Every system call the source
    issues is a monadic operation that updates the kernel model and appends
    one entry to a trace, so that statements such as "exactly one write to
    every other client" are statements about the trace.

    Diagnostic output ([std::cerr], [std::cout], [getnameinfo]) has no
    effect on descriptors or on the registry and is left out. *)

From Stdlib Require Import String Ascii ZArith List Bool Lia.
Import ListNotations.
Open Scope Z_scope.

(** ** Constants of <sys/epoll.h> and <fcntl.h> (Linux) *)

Definition EPOLLIN    : Z := 1.     (* 0x001 *)
Definition EPOLLERR   : Z := 8.     (* 0x008 *)
Definition EPOLLHUP   : Z := 16.    (* 0x010 *)
Definition EPOLLRDHUP : Z := 8192.  (* 0x2000 *)
Definition O_RDWR     : Z := 2.
Definition O_NONBLOCK : Z := 2048.  (* 04000 *)

(** [constexpr int tcp_epoll_max_events = 32;] *)
Definition tcp_epoll_max_events : Z := 32.

(** The interest mask the source arms for the listener and for every
    client: [EPOLLIN | EPOLLRDHUP | EPOLLERR | EPOLLHUP]. *)
Definition interest_mask : Z :=
  Z.lor (Z.lor (Z.lor EPOLLIN EPOLLRDHUP) EPOLLERR) EPOLLHUP.

(** C truth value of [mask & flag]. *)
Definition has_flag (mask flag : Z) : bool := negb (Z.land mask flag =? 0).

(** ** Data *)

(** [struct epoll_event], with [data] used through its [fd] member only. *)
Record epoll_event := mkEvent { events : Z; data_fd : Z }.

(** [std::thread epoll_worker]: default constructed it is not joinable;
    move-assigned from a started thread it is joinable until joined. *)
Inductive thread := NotAThread | Joinable | Joined.

Definition joinable (t : thread) : bool :=
  match t with Joinable => true | _ => false end.

(** The members of [class TCP_Server].  The array [events] only carries
    the batch of one [epoll_wait] call and is passed as a value instead. *)
Record TCP_Server := mkServer {
  socketfd : Z;
  worker_state : bool;
  isRunning : bool;
  epoll_worker : thread;
  event : epoll_event;
  client_fd_list : list Z
}.

(** One entry per call that leaves the process, oldest first. *)
Inductive effect :=
| Socket (ret : Z)
| Setsockopt (fd ret : Z)
| Gethostbyname (host : string) (found : bool)
| Bind (fd port ret : Z)
| Listen (fd ret : Z)
| EpollCreate1 (ret : Z)
| EpollCtlAdd (epollfd fd mask ret : Z)
| EpollWait (epollfd n : Z)
| Accept (fd ret : Z)
| FcntlGetfl (fd ret : Z)
| FcntlSetfl (fd flags ret : Z)
| Read (fd size : Z)
| Write (fd : Z) (bytes : list ascii)
| Close (fd : Z)
| ThreadStart
| ThreadJoin (joined : bool).

(** A connection waiting in the listener's accept queue.  [Aborted] is a
    connection on which [accept] fails with an errno other than
    EAGAIN/EWOULDBLOCK (ECONNABORTED); it leaves the queue all the same. *)
Inductive pending := Established | Aborted.

(** What the environment decides: which calls fail. *)
Record faults := mkFaults {
  socket_fails : bool;
  setsockopt_ret : Z;
  resolves : bool;              (* gethostbyname finds the host *)
  bind_ret : Z;                 (* result of bind on an open socket *)
  listen_ret : Z;               (* result of listen on an open socket *)
  epoll_create1_fails : bool;
  fcntl_getfl_err : list Z;     (* descriptors on which F_GETFL fails *)
  fcntl_setfl_err : list Z;     (* descriptors on which F_SETFL fails *)
  epoll_ctl_err : list Z        (* descriptors EPOLL_CTL_ADD refuses *)
}.

(** Kernel model: the descriptor table of the process, the flags and epoll
    registrations the source depends on, and the accept queue. *)
Record kernel := mkKernel {
  open_fds : list Z;            (* descriptors open in the process *)
  nonblocking : list Z;         (* descriptors with O_NONBLOCK set *)
  interest : list (Z * Z);      (* epoll interest list: (fd, mask) *)
  backlog : list pending;       (* accept queue of the listener *)
  trace : list effect;
  env : faults
}.

Record state := mkState { self : TCP_Server; os : kernel }.

(** What one [read(fd, &bufin, 1024)] yields: the return value and the
    contents of the 1024 byte buffer after the call. *)
Record read_result := mkRead { rd_size : Z; rd_bufin : list ascii }.

(** One readiness entry of a batch, with what a read on it would yield. *)
Record ready := mkReady { r_event : epoll_event; r_read : read_result }.

(** One [epoll_wait] call: the connections that reached the accept queue
    since the previous call, and the entries the kernel reports. *)
Record batch := mkBatch { b_arrivals : list pending; b_ready : list ready }.

(** ** A state monad over [state] *)

Definition M (A : Type) : Type := state -> A * state.

Definition ret {A} (a : A) : M A := fun st => (a, st).
Definition bind {A B} (m : M A) (k : A -> M B) : M B :=
  fun st => let (a, st') := m st in k a st'.

Notation "x <- m ;; k" := (bind m (fun x => k))
  (at level 61, m at next level, right associativity).
Notation "m ;;; k" := (bind m (fun _ => k))
  (at level 61, right associativity).

Definition exec {A} (m : M A) (st : state) : state := snd (m st).
Definition eval {A} (m : M A) (st : state) : A := fst (m st).

Definition get_self {A} (f : TCP_Server -> A) : M A :=
  fun st => (f (self st), st).
Definition get_os {A} (f : kernel -> A) : M A :=
  fun st => (f (os st), st).
Definition upd_self (f : TCP_Server -> TCP_Server) : M unit :=
  fun st => (tt, mkState (f (self st)) (os st)).
Definition upd_os (f : kernel -> kernel) : M unit :=
  fun st => (tt, mkState (self st) (f (os st))).

(** [for (auto x : l) body(x)] *)
Fixpoint for_each {A} (l : list A) (body : A -> M unit) : M unit :=
  match l with
  | [] => ret tt
  | x :: l' => body x ;;; for_each l' body
  end.

(** Member updates. *)
Definition set_socketfd (v : Z) (s : TCP_Server) : TCP_Server :=
  mkServer v (worker_state s) (isRunning s) (epoll_worker s) (event s)
           (client_fd_list s).
Definition set_worker_state (v : bool) (s : TCP_Server) : TCP_Server :=
  mkServer (socketfd s) v (isRunning s) (epoll_worker s) (event s)
           (client_fd_list s).
Definition set_isRunning (v : bool) (s : TCP_Server) : TCP_Server :=
  mkServer (socketfd s) (worker_state s) v (epoll_worker s) (event s)
           (client_fd_list s).
Definition set_epoll_worker (v : thread) (s : TCP_Server) : TCP_Server :=
  mkServer (socketfd s) (worker_state s) (isRunning s) v (event s)
           (client_fd_list s).
Definition set_event (v : epoll_event) (s : TCP_Server) : TCP_Server :=
  mkServer (socketfd s) (worker_state s) (isRunning s) (epoll_worker s) v
           (client_fd_list s).
Definition set_client_fd_list (v : list Z) (s : TCP_Server) : TCP_Server :=
  mkServer (socketfd s) (worker_state s) (isRunning s) (epoll_worker s)
           (event s) v.

(** ** Kernel operations *)

Definition mem (x : Z) (l : list Z) : bool := existsb (Z.eqb x) l.

Definition drop (x : Z) (l : list Z) : list Z :=
  filter (fun y => negb (y =? x)) l.

(** POSIX hands out the lowest descriptor number that is not open. *)
Definition lowest_free (open : list Z) : Z :=
  let candidates := map Z.of_nat (seq 0 (S (length open))) in
  match find (fun n => negb (mem n open)) candidates with
  | Some n => n
  | None => Z.of_nat (length open)
  end.

Definition log (e : effect) (k : kernel) : kernel :=
  mkKernel (open_fds k) (nonblocking k) (interest k) (backlog k)
           (trace k ++ [e]) (env k).
Definition set_open (v : list Z) (k : kernel) : kernel :=
  mkKernel v (nonblocking k) (interest k) (backlog k) (trace k) (env k).
Definition set_nonblocking (v : list Z) (k : kernel) : kernel :=
  mkKernel (open_fds k) v (interest k) (backlog k) (trace k) (env k).
Definition set_interest (v : list (Z * Z)) (k : kernel) : kernel :=
  mkKernel (open_fds k) (nonblocking k) v (backlog k) (trace k) (env k).
Definition set_backlog (v : list pending) (k : kernel) : kernel :=
  mkKernel (open_fds k) (nonblocking k) (interest k) v (trace k) (env k).

(** A new descriptor: [-1] when the call fails. *)
Definition open_new (fails : bool) (k : kernel) : Z * kernel :=
  if fails then (-1, k)
  else let fd := lowest_free (open_fds k) in
       (fd, set_open (fd :: open_fds k) k).

Definition sys_socket : M Z := fun st =>
  let (fd, k) := open_new (socket_fails (env (os st))) (os st) in
  (fd, mkState (self st) (log (Socket fd) k)).

Definition sys_setsockopt (fd : Z) : M Z := fun st =>
  let r := setsockopt_ret (env (os st)) in
  (r, mkState (self st) (log (Setsockopt fd r) (os st))).

Definition sys_gethostbyname (host : string) : M bool := fun st =>
  let r := resolves (env (os st)) in
  (r, mkState (self st) (log (Gethostbyname host r) (os st))).

(** [bind] and [listen] fail with EBADF on a descriptor that is not open. *)
Definition sys_bind (fd port : Z) : M Z := fun st =>
  let r := if mem fd (open_fds (os st)) then bind_ret (env (os st)) else -1 in
  (r, mkState (self st) (log (Bind fd port r) (os st))).

Definition sys_listen (fd : Z) : M Z := fun st =>
  let r := if mem fd (open_fds (os st)) then listen_ret (env (os st)) else -1 in
  (r, mkState (self st) (log (Listen fd r) (os st))).

Definition sys_epoll_create1 : M Z := fun st =>
  let (fd, k) := open_new (epoll_create1_fails (env (os st))) (os st) in
  (fd, mkState (self st) (log (EpollCreate1 fd) k)).

(** [epoll_ctl(epollfd, EPOLL_CTL_ADD, fd, &ev)] *)
Definition sys_epoll_ctl_add (epollfd fd : Z) (ev : epoll_event) : M Z :=
  fun st =>
    let k := os st in
    let ok := mem fd (open_fds k) && negb (mem fd (epoll_ctl_err (env k))) in
    let r := if ok then 0 else -1 in
    let k' := if ok then set_interest (interest k ++ [(fd, events ev)]) k
              else k in
    (r, mkState (self st) (log (EpollCtlAdd epollfd fd (events ev) r) k')).

(** [close(fd)]: the descriptor leaves the table and, with it, the epoll
    interest list. *)
Definition sys_close (fd : Z) : M unit := upd_os (fun k =>
  log (Close fd)
      (set_interest (filter (fun p => negb (fst p =? fd)) (interest k))
         (set_nonblocking (drop fd (nonblocking k))
            (set_open (drop fd (open_fds k)) k)))).

(** [accept]: [-1] on a descriptor that is not open (EBADF), on an empty
    queue (EAGAIN) and on an aborted connection; otherwise a new
    descriptor. *)
Definition sys_accept (fd : Z) : M Z := fun st =>
  let k := os st in
  if negb (mem fd (open_fds k)) then
    (-1, mkState (self st) (log (Accept fd (-1)) k))
  else
    match backlog k with
    | [] => (-1, mkState (self st) (log (Accept fd (-1)) k))
    | Aborted :: q =>
        (-1, mkState (self st) (log (Accept fd (-1)) (set_backlog q k)))
    | Established :: q =>
        let (infd, k') := open_new false (set_backlog q k) in
        (infd, mkState (self st) (log (Accept fd infd) k'))
    end.

(** The status flags of a socket: read-write, with O_NONBLOCK when set. *)
Definition getfl_value (fd : Z) (k : kernel) : Z :=
  if mem fd (nonblocking k) then Z.lor O_RDWR O_NONBLOCK else O_RDWR.

(** [fcntl(fd, F_GETFL, 0)] *)
Definition sys_fcntl_getfl (fd : Z) : M Z := fun st =>
  let k := os st in
  let r := if mem fd (open_fds k) && negb (mem fd (fcntl_getfl_err (env k)))
           then getfl_value fd k
           else -1 in
  (r, mkState (self st) (log (FcntlGetfl fd r) k)).

(** [fcntl(fd, F_SETFL, flags)] *)
Definition sys_fcntl_setfl (fd flags : Z) : M Z := fun st =>
  let k := os st in
  let ok := mem fd (open_fds k) && negb (mem fd (fcntl_setfl_err (env k))) in
  let r := if ok then 0 else -1 in
  let k' := if ok then
              set_nonblocking
                (if has_flag flags O_NONBLOCK then fd :: drop fd (nonblocking k)
                 else drop fd (nonblocking k)) k
            else k in
  (r, mkState (self st) (log (FcntlSetfl fd flags r) k')).

Definition sys_read (fd : Z) (r : read_result) : M read_result := fun st =>
  (r, mkState (self st) (log (Read fd (rd_size r)) (os st))).

(** [write(fd, &bufin, size)]: the first [size] bytes of the buffer.  The
    source ignores the result, and the call is taken to return.  A write
    on a connection the peer has reset raises SIGPIPE, whose default
    action the source leaves in place: the process then ends at that call
    and what the trace lists after it does not happen. *)
Definition sys_write (fd : Z) (bufin : list ascii) (size : Z) : M unit :=
  upd_os (log (Write fd (firstn (Z.to_nat size) bufin))).

(** [epoll_wait(epollfd, events, maxevents, 500)]: at most [maxevents]
    entries are reported. *)
Definition sys_epoll_wait (epollfd maxevents : Z) (b : batch)
  : M (list ready) := fun st =>
  let rs := firstn (Z.to_nat maxevents) (b_ready b) in
  let k := set_backlog (backlog (os st) ++ b_arrivals b) (os st) in
  (rs, mkState (self st) (log (EpollWait epollfd (Z.of_nat (length rs))) k)).

(** ** The methods of [TCP_Server] *)

(** [int create_and_bind(const string &localHost, const uint16_t &localPort)].
    The result of [socket] is compared with [0], as in the source. *)
Definition create_and_bind (localHost : string) (localPort : Z) : M Z :=
  fd <- sys_socket ;;
  upd_self (set_socketfd fd) ;;;
  if fd =? 0 then ret (-1) else
  sys_setsockopt fd ;;;
  found <- (if negb (String.eqb localHost "INADDR_ANY")
            then sys_gethostbyname localHost else ret true) ;;
  if negb found then ret (-1) else
  b <- sys_bind fd localPort ;;
  if negb (b =? 0) then sys_close fd ;;; ret (-1) else ret 0.

(** [bool make_socket_nonblocking(int socketfd)] *)
Definition make_socket_nonblocking (fd : Z) : M bool :=
  flags <- sys_fcntl_getfl fd ;;
  if flags =? -1 then ret false else
  s <- sys_fcntl_setfl fd (Z.lor flags O_NONBLOCK) ;;
  if s =? -1 then ret false else ret true.

(** [int accept_connection(int socketfd, struct epoll_event& event,
    int epollfd)]; the reference [event] is the member [event] at the only
    call site.  Both errno branches after a failed [accept] return [-1]. *)
Definition accept_connection (sockfd epollfd : Z) : M Z :=
  infd <- sys_accept sockfd ;;
  if infd =? -1 then ret (-1) else
  ok <- make_socket_nonblocking infd ;;
  if negb ok then ret (-1) else
  upd_self (set_event (mkEvent interest_mask infd)) ;;;
  ev <- get_self event ;;
  r <- sys_epoll_ctl_add epollfd infd ev ;;
  if r =? -1 then ret (-1) else ret infd.

(** [it = find(begin, end, fd); if (it != end) erase(it);] *)
Fixpoint erase_first (fd : Z) (l : list Z) : list Z :=
  match l with
  | [] => []
  | x :: l' => if x =? fd then l' else x :: erase_first fd l'
  end.

Definition quit : list ascii := list_ascii_of_string "quit".

(** [memcmp(a, b, n) == 0] *)
Definition memcmp_eq (a b : list ascii) (n : nat) : bool :=
  if list_eq_dec ascii_dec (firstn n a) (firstn n b) then true else false.

(** [(size == 6) && (memcmp("quit", &bufin, 4) == 0)] *)
Definition is_quit (r : read_result) : bool :=
  (rd_size r =? 6) && memcmp_eq quit (rd_bufin r) 4.

(** The three way test on the mask of an entry, lines 269 to 271. *)
Definition is_terminal (ev : epoll_event) : bool :=
  has_flag (events ev) EPOLLERR || has_flag (events ev) EPOLLHUP
  || negb (has_flag (events ev) EPOLLIN).

(** The fan-out loop, lines 302 to 307. *)
Definition forward (fd : Z) (r : read_result) : M unit :=
  l <- get_self client_fd_list ;;
  for_each l (fun sendfd =>
    if negb (sendfd =? fd) then sys_write sendfd (rd_bufin r) (rd_size r)
    else ret tt).

(** [client_fd_list.push_back(fd)] *)
Definition push_back (fd : Z) : M unit :=
  upd_self (fun s => set_client_fd_list (client_fd_list s ++ [fd]) s).

(** Lines 293 to 299 and 312 to 318: unregister, then close. *)
Definition drop_client (fd : Z) : M unit :=
  upd_self (fun s =>
    set_client_fd_list (erase_first fd (client_fd_list s)) s) ;;;
  sys_close fd.

(** The body of the [for] loop over one batch, lines 267 to 320. *)
Definition handle_event (epollfd : Z) (e : ready) : M unit :=
  let ev := r_event e in
  if is_terminal ev then
    sys_close (data_fd ev)
  else
    sfd <- get_self socketfd ;;
    if sfd =? data_fd ev then
      newclientfd <- accept_connection sfd epollfd ;;
      if newclientfd >? 0 then push_back newclientfd else ret tt
    else
      let fd := data_fd ev in
      r <- sys_read fd (r_read e) ;;
      if rd_size r >? 0 then
        if is_quit r then drop_client fd else forward fd r
      else drop_client fd.

(** [event_worker], lines 236 to 257: the result is the epoll descriptor
    when the worker reached [worker_state.store(true)], [None] when it
    returned early. *)
Definition event_worker_startup : M (option Z) :=
  sfd <- get_self socketfd ;;
  l <- sys_listen sfd ;;
  if l =? -1 then ret None else
  upd_self (set_event (mkEvent interest_mask sfd)) ;;;
  epollfd <- sys_epoll_create1 ;;
  if epollfd =? -1 then ret None else
  ev <- get_self event ;;
  r <- sys_epoll_ctl_add epollfd sfd ev ;;
  if r =? -1 then ret None else
  upd_self (set_worker_state true) ;;;
  ret (Some epollfd).

(** One turn of the [while] loop, lines 262 to 322. *)
Definition event_worker_iteration (epollfd : Z) (b : batch) : M unit :=
  rs <- sys_epoll_wait epollfd tcp_epoll_max_events b ;;
  for_each rs (handle_event epollfd).

(** [while (isRunning.load(memory_order_acquire) == true)], one batch of
    the script per turn.  The result is [true] when the flag was read
    false, that is when the loop was left; [false] when the script ran out
    with the worker still looping. *)
Fixpoint event_worker_loop (epollfd : Z) (script : list batch) : M bool :=
  fun st =>
    if negb (isRunning (self st)) then (true, st)
    else match script with
         | [] => (false, st)
         | b :: script' =>
             event_worker_loop epollfd script'
               (exec (event_worker_iteration epollfd b) st)
         end.

(** Lines 325 to 329. *)
Definition event_worker_shutdown (epollfd : Z) : M unit :=
  upd_self (set_worker_state false) ;;;
  sfd <- get_self socketfd ;;
  sys_close sfd ;;;
  sys_close epollfd.

(** The worker from the loop on: [true] when it returned. *)
Definition event_worker_from (epollfd : Z) (script : list batch) : M bool :=
  left <- event_worker_loop epollfd script ;;
  if left then event_worker_shutdown epollfd ;;; ret true else ret false.

(** [void event_worker()]: [true] when it returned. *)
Definition event_worker (script : list batch) : M bool :=
  started <- event_worker_startup ;;
  match started with
  | None => ret true
  | Some epollfd => event_worker_from epollfd script
  end.

(** [void start_event_worker()] *)
Definition start_event_worker : M unit :=
  upd_self (set_worker_state false) ;;;
  upd_self (set_isRunning true) ;;;
  upd_os (log ThreadStart) ;;;
  upd_self (set_epoll_worker Joinable).

(** [epoll_worker.join()]: waits for the worker, whose remaining steps are
    [worker_rest]; on a thread that is not joinable it throws
    [std::system_error] and the result is [false]. *)
Definition thread_join (worker_rest : M unit) : M bool :=
  t <- get_self epoll_worker ;;
  if joinable t then
    worker_rest ;;;
    upd_os (log (ThreadJoin true)) ;;;
    upd_self (set_epoll_worker Joined) ;;;
    ret true
  else
    upd_os (log (ThreadJoin false)) ;;;
    ret false.

(** [void stop_event_worker()]: [false] when [join] threw. *)
Definition stop_event_worker (worker_rest : M unit) : M bool :=
  upd_self (set_isRunning false) ;;;
  thread_join worker_rest.

(** [TCP_Server(string localHost, uint16_t localPort)] *)
Definition TCP_Server_host_port (localHost : string) (localPort : Z) : M unit :=
  r <- create_and_bind localHost localPort ;;
  if r =? 0 then start_event_worker else ret tt.

(** [TCP_Server(uint16_t localPort)] *)
Definition TCP_Server_port (localPort : Z) : M unit :=
  r <- create_and_bind "0.0.0.0" localPort ;;
  if r =? 0 then start_event_worker else ret tt.

(** [~TCP_Server()] *)
Definition TCP_Server_destroy (worker_rest : M unit) : M bool :=
  stop_event_worker worker_rest.

(** [bool isAlive() { return isRunning; }] *)
Definition isAlive : M bool := get_self isRunning.

(** What the worker thread still does once [isRunning] is false, taken at
    the test of the loop: the batch the worker was handling when the flag
    was cleared is the last batch of the script it ran over. *)
Definition worker_rest (started : option Z) : M unit :=
  match started with
  | Some epollfd => event_worker_from epollfd [] ;;; ret tt
  | None => ret tt
  end.

(** [int main()].  The worker thread, when there is one, runs its startup
    during the one second sleep and one turn of its loop per batch of
    [script] while [main] waits for SIGINT.  The result is the exit code,
    or [None] when the destructor's [join] threw and the process was
    terminated. *)
Definition main (script : list batch) : M (option Z) :=
  TCP_Server_port 9090 ;;;
  t <- get_self epoll_worker ;;
  started <- (if joinable t then event_worker_startup else ret None) ;;
  alive <- isAlive ;;
  if negb alive then
    ok <- TCP_Server_destroy (worker_rest started) ;;
    ret (if ok then Some (-1) else None)
  else
    match started with
    | Some epollfd => event_worker_loop epollfd script ;;; ret tt
    | None => ret tt
    end ;;;
    ok <- TCP_Server_destroy (worker_rest started) ;;
    ret (if ok then Some 0 else None).

(** The storage of a [TCP_Server] before a constructor body runs: the
    containers are empty and the thread is not joinable; the scalar
    members are not initialised and hold whatever the storage held. *)
Definition raw_object (fd : Z) (ws run : bool) : TCP_Server :=
  mkServer fd ws run NotAThread (mkEvent 0 0) [].

(** A process with the three standard descriptors open. *)
Definition boot (f : faults) : kernel := mkKernel [0; 1; 2] [] [] [] [] f.

Definition no_faults : faults := mkFaults false 0 true 0 0 false [] [] [].

Definition initial (f : faults) : state :=
  mkState (raw_object 0 false false) (boot f).

(** ** Observations on runs *)

(** The state a computation leaves, and what it appended to the trace. *)
Definition since (st st' : state) : list effect :=
  skipn (List.length (trace (os st))) (trace (os st')).

Definition emitted {A} (m : M A) (st : state) : list effect :=
  since st (exec m st).

(** The first [size] bytes of the buffer: what was received. *)
Definition payload (r : read_result) : list ascii :=
  firstn (Z.to_nat (rd_size r)) (rd_bufin r).

(** The byte strings written to descriptor [c], in order. *)
Definition writes_to (c : Z) (t : list effect) : list (list ascii) :=
  flat_map (fun e => match e with
                     | Write fd b => if fd =? c then [b] else []
                     | _ => []
                     end) t.

(** The descriptors written to, in order. *)
Definition recipients (t : list effect) : list Z :=
  flat_map (fun e => match e with Write fd _ => [fd] | _ => [] end) t.

(** The descriptors [accept] returned, in order. *)
Definition accepted (t : list effect) : list Z :=
  flat_map (fun e => match e with
                     | Accept _ r => if r =? -1 then [] else [r]
                     | _ => []
                     end) t.

Definition closes (t : list effect) : list Z :=
  flat_map (fun e => match e with Close fd => [fd] | _ => [] end) t.

Definition accept_calls (t : list effect) : nat :=
  List.length
    (filter (fun e => match e with Accept _ _ => true | _ => false end) t).

(** Appending several entries at once. *)
Definition log_all (es : list effect) (k : kernel) : kernel :=
  mkKernel (open_fds k) (nonblocking k) (interest k) (backlog k)
           (trace k ++ es) (env k).

(** [l1] is [l2] with some elements left out, the order kept. *)
Inductive subseq {A} : list A -> list A -> Prop :=
| subseq_nil : subseq [] []
| subseq_skip x l1 l2 : subseq l1 l2 -> subseq l1 (x :: l2)
| subseq_keep x l1 l2 : subseq l1 l2 -> subseq (x :: l1) (x :: l2).

(** The registry lists descriptors in the order [accept] returned them. *)
Definition in_accept_order (st : state) : Prop :=
  subseq (client_fd_list (self st)) (accepted (trace (os st))).

(** From [st] to [st'] the trace was only appended to, by [es] say, the
    registry of [st'] is, in order, part of the registry of [st] followed
    by the descriptors accepted in [es], and neither the running flag nor
    the listener changed. *)
Definition grows (st st' : state) : Prop :=
  exists es,
    trace (os st') = trace (os st) ++ es
    /\ subseq (client_fd_list (self st'))
              (client_fd_list (self st) ++ accepted es)
    /\ isRunning (self st') = isRunning (self st)
    /\ socketfd (self st') = socketfd (self st).

(** ** Concrete runs used in the examples below *)

(** The buffer after a read of [s]: the bytes of [s], then the rest of the
    1024 bytes. *)
Definition bufin_of (s : string) : list ascii :=
  list_ascii_of_string s ++ repeat zero (1024 - String.length s).

(** A client that has [s] to deliver. *)
Definition incoming (fd : Z) (s : string) : ready :=
  mkReady (mkEvent EPOLLIN fd)
          (mkRead (Z.of_nat (String.length s)) (bufin_of s)).

(** An entry with mask [mask] on which nothing will be read. *)
Definition signalled (fd mask : Z) : ready :=
  mkReady (mkEvent mask fd) (mkRead 0 (bufin_of "")).

(** The server constructed on port 9090, its worker started and run over
    [script]; the worker is still in its loop. *)
Definition up (f : faults) (script : list batch) : state :=
  exec (TCP_Server_port 9090 ;;;
        started <- event_worker_startup ;;
        match started with
        | Some epollfd => event_worker_loop epollfd script ;;; ret tt
        | None => ret tt
        end) (initial f).

(** Environments in which one call fails. *)
Definition socket_refused : faults := mkFaults true 0 true 0 0 false [] [] [].
Definition bind_refused : faults := mkFaults false 0 true (-1) 0 false [] [] [].
Definition listen_refused : faults :=
  mkFaults false 0 true 0 (-1) false [] [] [].
Definition epoll_create_refused : faults :=
  mkFaults false 0 true 0 0 true [] [] [].
Definition getfl_refused_on (fd : Z) : faults :=
  mkFaults false 0 true 0 0 false [fd] [] [].

(** Descriptor 5 is reported with an error and a hangup. *)
Definition reset5 : batch :=
  mkBatch [] [signalled 5 (Z.lor EPOLLERR EPOLLHUP)].

(** Two connections arrive before the listener is reported once. *)
Definition connect_two : batch :=
  mkBatch [Established; Established] [signalled 3 EPOLLIN].

(** The listener is reported with an error, then client 5 has data; in the
    next batch client 5 has data again. *)
Definition listener_error : list batch :=
  [mkBatch [] [signalled 3 EPOLLERR; incoming 5 "x"];
   mkBatch [] [incoming 5 "y"]].

(** The state in which the supervisor has cleared the running flag. *)
Definition stop_requested (st : state) : state :=
  exec (upd_self (set_isRunning false)) st.

(** One connection arrives and the listener (descriptor 3) is reported. *)
Definition connect : batch :=
  mkBatch [Established] [signalled 3 EPOLLIN].

(** The running server at the moment [epoll_wait] returns with one
    connection queued. *)
Definition one_pending (f : faults) : state :=
  exec (sys_epoll_wait 4 tcp_epoll_max_events connect) (up f []).

(** ** Further observations *)

(** The descriptors read from, in order. *)
Definition reads (t : list effect) : list Z :=
  flat_map (fun e => match e with Read fd _ => [fd] | _ => [] end) t.

(** The host names handed to the resolver, in order. *)
Definition resolved (t : list effect) : list string :=
  flat_map (fun e => match e with Gethostbyname h _ => [h] | _ => [] end) t.

(** The descriptors handed to [bind], in order. *)
Definition bound (t : list effect) : list Z :=
  flat_map (fun e => match e with Bind fd _ _ => [fd] | _ => [] end) t.

(** The descriptors reported in the entries of a script. *)
Definition reported (script : list batch) : list Z :=
  flat_map (fun b => map (fun r => data_fd (r_event r)) (b_ready b)) script.

(** From [st] to [st'] descriptor [c] stayed open, registered and armed,
    as far as it was. *)
Definition kept (c : Z) (st st' : state) : Prop :=
  (In c (open_fds (os st)) -> In c (open_fds (os st')))
  /\ (In c (client_fd_list (self st)) -> In c (client_fd_list (self st')))
  /\ (forall mask, In (c, mask) (interest (os st)) ->
                   In (c, mask) (interest (os st'))).

(** Descriptor [c] is open, non-blocking and armed with the full mask. *)
Definition member_ready (st : state) (c : Z) : Prop :=
  In c (open_fds (os st))
  /\ In c (nonblocking (os st))
  /\ In (c, interest_mask) (interest (os st)).

(** The registry lists no descriptor twice and every member is ready. *)
Definition registry_ready (st : state) : Prop :=
  NoDup (client_fd_list (self st))
  /\ forall c, In c (client_fd_list (self st)) -> member_ready st c.

(** No entry of the script fails the mask test. *)
Definition all_readable (script : list batch) : Prop :=
  forall b r, In b script -> In r (b_ready b) ->
              is_terminal (r_event r) = false.

(** The running server with one connection queued, after something else
    in the process closed descriptor 0. *)
Definition stdin_closed : state := exec (sys_close 0) (one_pending no_faults).

(** An environment in which no host name resolves. *)
Definition resolver_down : faults := mkFaults false 0 false 0 0 false [] [] [].

(** A process started with descriptor 0 closed. *)
Definition no_stdin (f : faults) : state :=
  mkState (raw_object 0 false false) (mkKernel [1; 2] [] [] [] [] f).

(** What the worker thread still does when [isRunning] is cleared while it
    is inside [epoll_wait]: it handles the batch that call returns, then
    reads the flag, leaves the loop and shuts down. *)
Definition worker_finishing (epollfd : Z) (b : batch) : M unit :=
  event_worker_iteration epollfd b ;;;
  event_worker_from epollfd [] ;;;
  ret tt.

(** ** Basic facts *)

Lemma since_app st st' es :
  trace (os st') = trace (os st) ++ es -> since st st' = es.
Proof.
  unfold since. intros ->.
  rewrite skipn_app, skipn_all, Nat.sub_diag. reflexivity.
Qed.

Lemma log_all_nil k : log_all [] k = k.
Proof. destruct k; unfold log_all; simpl. now rewrite app_nil_r. Qed.

Lemma log_all_cons e es k : log_all (e :: es) k = log_all es (log e k).
Proof. unfold log_all, log; simpl. now rewrite <- app_assoc. Qed.

Lemma mem_true_iff x l : mem x l = true <-> In x l.
Proof.
  unfold mem. rewrite existsb_exists. split.
  - intros (y & Hy & E). apply Z.eqb_eq in E. now subst.
  - intros H. exists x. split; [assumption | apply Z.eqb_refl].
Qed.

Lemma in_drop x fd l : In x (drop fd l) <-> In x l /\ x <> fd.
Proof.
  unfold drop. rewrite filter_In, negb_true_iff, Z.eqb_neq. tauto.
Qed.

(** The fan-out loop writes to the registry entries other than the sender,
    in registry order, and touches nothing else. *)
Lemma for_each_forward fd r l st :
  for_each l (fun sendfd =>
    if negb (sendfd =? fd) then sys_write sendfd (rd_bufin r) (rd_size r)
    else ret tt) st
  = (tt, mkState (self st)
           (log_all (map (fun c => Write c (payload r)) (drop fd l)) (os st))).
Proof.
  revert st. induction l as [|c l IH]; intros st; simpl.
  - unfold ret. rewrite log_all_nil. now destruct st.
  - unfold bind. destruct (c =? fd) eqn:E; simpl.
    + unfold ret at 1. apply IH.
    + unfold sys_write, upd_os. rewrite IH. simpl.
      now rewrite log_all_cons.
Qed.

Lemma forward_spec fd r st :
  forward fd r st
  = (tt, mkState (self st)
           (log_all (map (fun c => Write c (payload r))
                         (drop fd (client_fd_list (self st)))) (os st))).
Proof. unfold forward, bind, get_self. apply for_each_forward. Qed.

Lemma writes_to_map c p l :
  writes_to c (map (fun x => Write x p) l) = repeat p (count_occ Z.eq_dec l c).
Proof.
  induction l as [|x l IH]; simpl; [reflexivity|].
  destruct (Z.eq_dec x c) as [->|N].
  - rewrite Z.eqb_refl. simpl. now rewrite IH.
  - apply Z.eqb_neq in N. rewrite N. simpl. exact IH.
Qed.

Lemma recipients_map p l : recipients (map (fun x => Write x p) l) = l.
Proof. induction l as [|x l IH]; simpl; [reflexivity | now rewrite IH]. Qed.

Lemma closes_map_write p l : closes (map (fun x => Write x p) l) = [].
Proof. induction l as [|x l IH]; simpl; [reflexivity | exact IH]. Qed.

Lemma in_closes fd t : In (Close fd) t <-> In fd (closes t).
Proof.
  unfold closes. rewrite in_flat_map. split.
  - intros I. exists (Close fd). simpl. auto.
  - intros (x & I & H). destruct x; simpl in H; try contradiction.
    destruct H as [->|[]]. exact I.
Qed.

Lemma count_occ_drop_other c fd l :
  c <> fd -> count_occ Z.eq_dec (drop fd l) c = count_occ Z.eq_dec l c.
Proof.
  intros N. induction l as [|x l IH]; simpl; [reflexivity|].
  destruct (x =? fd) eqn:E; simpl.
  - apply Z.eqb_eq in E. subst x.
    destruct (Z.eq_dec fd c); [congruence | exact IH].
  - destruct (Z.eq_dec x c); now rewrite IH.
Qed.

Lemma count_occ_drop_self fd l : count_occ Z.eq_dec (drop fd l) fd = 0%nat.
Proof.
  apply count_occ_not_In. rewrite in_drop. tauto.
Qed.

(** A ready client with data that is not the sentinel: what [handle_event]
    does, as an equation on states. *)
Lemma handle_event_payload epollfd e st :
  is_terminal (r_event e) = false ->
  socketfd (self st) <> data_fd (r_event e) ->
  0 < rd_size (r_read e) ->
  is_quit (r_read e) = false ->
  handle_event epollfd e st
  = (tt, mkState (self st)
           (log_all (Read (data_fd (r_event e)) (rd_size (r_read e))
                     :: map (fun c => Write c (payload (r_read e)))
                            (drop (data_fd (r_event e))
                                  (client_fd_list (self st))))
                    (os st))).
Proof.
  intros T L S Q. unfold handle_event. rewrite T.
  unfold bind at 1. unfold get_self at 1.
  apply Z.eqb_neq in L. rewrite L.
  unfold bind at 1. unfold sys_read at 1.
  apply Z.gtb_lt in S. rewrite S, Q.
  rewrite forward_spec. simpl. now rewrite log_all_cons.
Qed.

(** A ready client whose read yields no data, or the sentinel. *)
Lemma handle_event_drop epollfd e st :
  is_terminal (r_event e) = false ->
  socketfd (self st) <> data_fd (r_event e) ->
  rd_size (r_read e) <= 0 \/ is_quit (r_read e) = true ->
  handle_event epollfd e st
  = drop_client (data_fd (r_event e))
      (mkState (self st)
         (log (Read (data_fd (r_event e)) (rd_size (r_read e))) (os st))).
Proof.
  intros T L D. unfold handle_event. rewrite T.
  unfold bind at 1. unfold get_self at 1.
  apply Z.eqb_neq in L. rewrite L.
  unfold bind at 1. unfold sys_read at 1.
  destruct (rd_size (r_read e) >? 0) eqn:S.
  - destruct D as [D|D]; [apply Z.gtb_lt in S; lia | now rewrite D].
  - reflexivity.
Qed.

Lemma is_quit_iff r :
  is_quit r = true <-> rd_size r = 6 /\ firstn 4 (rd_bufin r) = quit.
Proof.
  unfold is_quit, memcmp_eq. rewrite andb_true_iff, Z.eqb_eq.
  destruct (list_eq_dec ascii_dec (firstn 4 quit) (firstn 4 (rd_bufin r)))
    as [E|N]; simpl in *.
  - split; intros [H _]; split; auto.
  - split; intros [H H']; [discriminate|]. exfalso. apply N. now rewrite H'.
Qed.

(** ** The broadcast handler *)

Lemma fanout_payload_shape epollfd e st :
  is_terminal (r_event e) = false ->
  socketfd (self st) <> data_fd (r_event e) ->
  0 < rd_size (r_read e) ->
  is_quit (r_read e) = false ->
  emitted (handle_event epollfd e) st
    = Read (data_fd (r_event e)) (rd_size (r_read e))
      :: map (fun c => Write c (payload (r_read e)))
             (drop (data_fd (r_event e)) (client_fd_list (self st)))
  /\ self (exec (handle_event epollfd e) st) = self st.
Proof.
  intros T L S Q. unfold emitted, exec.
  rewrite (handle_event_payload epollfd e st T L S Q).
  split; [now apply since_app | reflexivity].
Qed.


(** ** The accept helper *)

Lemma lowest_free_nonneg l : 0 <= lowest_free l.
Proof.
  unfold lowest_free.
  destruct (find _ _) as [n|] eqn:F; [|lia].
  apply find_some in F. destruct F as [I _].
  apply in_map_iff in I. destruct I as (k & <- & _). lia.
Qed.

Lemma mem_head x l : mem x (x :: l) = true.
Proof. unfold mem. simpl. now rewrite Z.eqb_refl. Qed.

Lemma getfl_value_sets_nonblock fd k :
  getfl_value fd k <> -1
  /\ has_flag (Z.lor (getfl_value fd k) O_NONBLOCK) O_NONBLOCK = true.
Proof.
  unfold getfl_value.
  destruct (mem fd (nonblocking k)); split; try reflexivity; discriminate.
Qed.

Lemma make_socket_nonblocking_eq fd st :
  mem fd (open_fds (os st)) = true ->
  make_socket_nonblocking fd st
  = if mem fd (fcntl_getfl_err (env (os st))) then
      (false, mkState (self st) (log_all [FcntlGetfl fd (-1)] (os st)))
    else if mem fd (fcntl_setfl_err (env (os st))) then
      (false, mkState (self st)
                (log_all
                   [FcntlGetfl fd (getfl_value fd (os st));
                    FcntlSetfl fd (Z.lor (getfl_value fd (os st)) O_NONBLOCK)
                               (-1)]
                   (os st)))
    else
      (true, mkState (self st)
               (log_all
                  [FcntlGetfl fd (getfl_value fd (os st));
                   FcntlSetfl fd (Z.lor (getfl_value fd (os st)) O_NONBLOCK) 0]
                  (set_nonblocking (fd :: drop fd (nonblocking (os st)))
                                   (os st)))).
Proof.
  intros O. destruct (getfl_value_sets_nonblock fd (os st)) as [N F].
  unfold make_socket_nonblocking, bind, sys_fcntl_getfl. rewrite O.
  destruct (mem fd (fcntl_getfl_err (env (os st)))) eqn:G; cbn [negb andb].
  - reflexivity.
  -     apply Z.eqb_neq in N. rewrite N.
    unfold sys_fcntl_setfl. cbn [os self log open_fds env nonblocking].
    rewrite O.
    destruct (mem fd (fcntl_setfl_err (env (os st)))) eqn:S; cbn [negb andb].
    + cbn [Z.eqb]. unfold ret. now rewrite !log_all_cons, log_all_nil.
    + rewrite F. cbn [Z.eqb]. unfold ret.
      destruct st as [s [o n i b t v]].
      unfold log_all, log, set_nonblocking. simpl.
      now rewrite <- app_assoc.
Qed.

Lemma accept_connection_eq sfd epollfd st :
  accept_connection sfd epollfd st
  = if negb (mem sfd (open_fds (os st))) then
      (-1, mkState (self st) (log_all [Accept sfd (-1)] (os st)))
    else match backlog (os st) with
    | [] => (-1, mkState (self st) (log_all [Accept sfd (-1)] (os st)))
    | Aborted :: q =>
        (-1, mkState (self st)
               (log_all [Accept sfd (-1)] (set_backlog q (os st))))
    | Established :: q =>
        let infd := lowest_free (open_fds (os st)) in
        let k1 := set_open (infd :: open_fds (os st)) (set_backlog q (os st)) in
        let flags := getfl_value infd (os st) in
        if mem infd (fcntl_getfl_err (env (os st))) then
          (-1, mkState (self st)
                 (log_all [Accept sfd infd; FcntlGetfl infd (-1)] k1))
        else if mem infd (fcntl_setfl_err (env (os st))) then
          (-1, mkState (self st)
                 (log_all [Accept sfd infd; FcntlGetfl infd flags;
                           FcntlSetfl infd (Z.lor flags O_NONBLOCK) (-1)] k1))
        else
          let k2 :=
            set_nonblocking (infd :: drop infd (nonblocking (os st))) k1 in
          let s2 := set_event (mkEvent interest_mask infd) (self st) in
          if mem infd (epoll_ctl_err (env (os st))) then
            (-1, mkState s2
                   (log_all [Accept sfd infd; FcntlGetfl infd flags;
                             FcntlSetfl infd (Z.lor flags O_NONBLOCK) 0;
                             EpollCtlAdd epollfd infd interest_mask (-1)] k2))
          else
            (infd, mkState s2
                     (log_all [Accept sfd infd; FcntlGetfl infd flags;
                               FcntlSetfl infd (Z.lor flags O_NONBLOCK) 0;
                               EpollCtlAdd epollfd infd interest_mask 0]
                        (set_interest
                           (interest (os st) ++ [(infd, interest_mask)]) k2)))
    end.
Proof.
  destruct st as [s [o n i b t v]].
  unfold accept_connection. unfold bind at 1. unfold sys_accept.
  cbn [os self env open_fds backlog nonblocking interest trace].
  destruct (mem sfd o) eqn:O; cbn [negb].
  2:{ cbn [Z.eqb]. unfold ret. now rewrite log_all_cons, log_all_nil. }
  destruct b as [|[|] q].
  1:{ cbn [Z.eqb]. unfold ret. now rewrite log_all_cons, log_all_nil. }
  2:{ cbn [Z.eqb]. unfold ret. now rewrite log_all_cons, log_all_nil. }
  unfold open_new, set_backlog, set_open.
  cbn [os self env open_fds backlog nonblocking interest trace].
  pose proof (lowest_free_nonneg o) as NN.
  set (infd := lowest_free o) in *.
  assert (E : (infd =? -1) = false) by (apply Z.eqb_neq; lia). rewrite E.
  unfold bind at 1. rewrite make_socket_nonblocking_eq by apply mem_head.
  unfold getfl_value, log_all, log, set_open, set_nonblocking, set_interest,
    set_backlog.
  cbn [os self env open_fds backlog nonblocking interest trace].
  destruct (mem infd (fcntl_getfl_err v)) eqn:G.
  { cbn [negb]. unfold ret. now rewrite <- app_assoc. }
  destruct (mem infd (fcntl_setfl_err v)) eqn:S.
  { cbn [negb]. unfold ret. now rewrite <- app_assoc. }
  cbn [negb].
  unfold bind, upd_self, get_self, sys_epoll_ctl_add, log, set_interest.
  cbn [os self env open_fds backlog nonblocking interest trace event set_event
       events].
  rewrite mem_head.
  destruct (mem infd (epoll_ctl_err v)) eqn:C; cbn [negb andb Z.eqb];
    unfold ret; simpl; now rewrite <- !app_assoc.
Qed.

(** A readable listener: one call of the accept helper, and a push when
    its result is positive. *)
Lemma handle_event_listener epollfd e st :
  is_terminal (r_event e) = false ->
  socketfd (self st) = data_fd (r_event e) ->
  handle_event epollfd e st
  = let (r, st1) := accept_connection (socketfd (self st)) epollfd st in
    if r >? 0 then
      (tt, mkState (set_client_fd_list (client_fd_list (self st1) ++ [r])
                                       (self st1)) (os st1))
    else (tt, st1).
Proof.
  intros T L. unfold handle_event. rewrite T.
  unfold bind at 1. unfold get_self at 1. rewrite L, Z.eqb_refl.
  unfold bind.
  destruct (accept_connection (data_fd (r_event e)) epollfd st) as [r st1].
  destruct (r >? 0); reflexivity.
Qed.

(** Case analysis on what the accept helper met. *)
Ltac accept_cases st :=
  rewrite accept_connection_eq;
  destruct (mem (socketfd (self st)) (open_fds (os st))) eqn:?; cbn [negb];
  [ destruct (backlog (os st)) as [|[|] ?] eqn:?;
    [ | cbv zeta;
        destruct (mem (lowest_free (open_fds (os st)))
                      (fcntl_getfl_err (env (os st)))) eqn:?;
        [ | destruct (mem (lowest_free (open_fds (os st)))
                          (fcntl_setfl_err (env (os st)))) eqn:?;
            [ | destruct (mem (lowest_free (open_fds (os st)))
                              (epoll_ctl_err (env (os st)))) eqn:? ] ]
      | ]
  | ].


(** ** The listener *)

(** C5, as amended.  On a readiness event for the listener the dispatcher
    calls the accept helper exactly once: at most one pending connection
    leaves the accept queue and the others stay queued for a later
    notification; the registry either is unchanged or gains the accepted
    descriptor at its end; a failed accept (result -1) registers nothing,
    leaves the running flag alone, and the dispatcher goes on with the
    next entry of the batch. *)
Theorem listener_event_accepts_once epollfd e st :
  is_terminal (r_event e) = false ->
  socketfd (self st) = data_fd (r_event e) ->
  accept_calls (emitted (handle_event epollfd e) st) = 1%nat
  /\ backlog (os (exec (handle_event epollfd e) st))
     = (if mem (socketfd (self st)) (open_fds (os st))
        then tl (backlog (os st)) else backlog (os st))
  /\ (client_fd_list (self (exec (handle_event epollfd e) st))
      = client_fd_list (self st)
      \/ exists infd,
           0 < infd
           /\ accepted (emitted (handle_event epollfd e) st) = [infd]
           /\ client_fd_list (self (exec (handle_event epollfd e) st))
              = client_fd_list (self st) ++ [infd])
  /\ (eval (accept_connection (socketfd (self st)) epollfd) st = -1 ->
      client_fd_list (self (exec (handle_event epollfd e) st))
      = client_fd_list (self st))
  /\ isRunning (self (exec (handle_event epollfd e) st)) = isRunning (self st)
  /\ (forall rest,
        exec (for_each (e :: rest) (handle_event epollfd)) st
        = exec (for_each rest (handle_event epollfd))
               (exec (handle_event epollfd e) st)).
Proof.
  intros T L.
  assert (F : forall rest,
        exec (for_each (e :: rest) (handle_event epollfd)) st
        = exec (for_each rest (handle_event epollfd))
               (exec (handle_event epollfd e) st)).
  { intros rest. unfold exec. cbn [for_each]. unfold bind.
    now destruct (handle_event epollfd e st). }
  enough (H : accept_calls (emitted (handle_event epollfd e) st) = 1%nat
  /\ backlog (os (exec (handle_event epollfd e) st))
     = (if mem (socketfd (self st)) (open_fds (os st))
        then tl (backlog (os st)) else backlog (os st))
  /\ (client_fd_list (self (exec (handle_event epollfd e) st))
      = client_fd_list (self st)
      \/ exists infd,
           0 < infd
           /\ accepted (emitted (handle_event epollfd e) st) = [infd]
           /\ client_fd_list (self (exec (handle_event epollfd e) st))
              = client_fd_list (self st) ++ [infd])
  /\ (eval (accept_connection (socketfd (self st)) epollfd) st = -1 ->
      client_fd_list (self (exec (handle_event epollfd e) st))
      = client_fd_list (self st))
  /\ isRunning (self (exec (handle_event epollfd e) st)) = isRunning (self st)).
  { destruct H as (H1 & H2 & H3 & H4 & H5). repeat split; assumption. }
  clear F.
  pose proof (lowest_free_nonneg (open_fds (os st))) as NN.
  unfold emitted, exec, eval.
  rewrite (handle_event_listener _ _ _ T L).
  accept_cases st.
  all: try destruct (lowest_free (open_fds (os st)) >? 0) eqn:P.
  all: cbn [snd fst Z.gtb Z.compare].
  all: try (erewrite since_app; [|reflexivity]).
  all: cbn [self os backlog log_all set_open set_backlog set_nonblocking
            set_interest set_client_fd_list set_event client_fd_list
            isRunning tl].
  all: repeat split; try reflexivity; auto.
  all: try (intros E; exfalso; apply Z.gtb_lt in P; lia).
  right. exists (lowest_free (open_fds (os st))).
  apply Z.gtb_lt in P. repeat split; try assumption.
  unfold accepted. cbn [flat_map app].
  destruct (lowest_free (open_fds (os st)) =? -1) eqn:E; [|reflexivity].
  apply Z.eqb_eq in E. lia.
Qed.

(** C8, as amended.  A descriptor returned by [accept] is put into
    non-blocking mode before anything else is done with it: it is armed in
    the multiplexer only after [F_SETFL] succeeded, and enters the registry
    only after that.  When setting non-blocking mode fails the descriptor
    is neither armed nor registered; the helper returns without closing it,
    so the descriptor stays open. *)
Theorem nonblocking_before_arming epollfd e st infd :
  is_terminal (r_event e) = false ->
  socketfd (self st) = data_fd (r_event e) ->
  accepted (emitted (handle_event epollfd e) st) = [infd] ->
  In infd (open_fds (os (exec (handle_event epollfd e) st)))
  /\ closes (emitted (handle_event epollfd e) st) = []
  /\ (((emitted (handle_event epollfd e) st
        = [Accept (socketfd (self st)) infd; FcntlGetfl infd (-1)]
        \/ exists flags,
             emitted (handle_event epollfd e) st
             = [Accept (socketfd (self st)) infd; FcntlGetfl infd flags;
                FcntlSetfl infd (Z.lor flags O_NONBLOCK) (-1)])
       /\ client_fd_list (self (exec (handle_event epollfd e) st))
          = client_fd_list (self st)
       /\ interest (os (exec (handle_event epollfd e) st))
          = interest (os st)
       /\ nonblocking (os (exec (handle_event epollfd e) st))
          = nonblocking (os st))
      \/ (exists flags r,
            emitted (handle_event epollfd e) st
            = [Accept (socketfd (self st)) infd; FcntlGetfl infd flags;
               FcntlSetfl infd (Z.lor flags O_NONBLOCK) 0;
               EpollCtlAdd epollfd infd interest_mask r]
            /\ In infd (nonblocking (os (exec (handle_event epollfd e) st)))
            /\ (client_fd_list (self (exec (handle_event epollfd e) st))
                = client_fd_list (self st)
                \/ r = 0
                   /\ In (infd, interest_mask)
                         (interest (os (exec (handle_event epollfd e) st)))
                   /\ client_fd_list (self (exec (handle_event epollfd e) st))
                      = client_fd_list (self st) ++ [infd]))).
Proof.
  intros T L.
  pose proof (lowest_free_nonneg (open_fds (os st))) as NN.
  assert (NE : (lowest_free (open_fds (os st)) =? -1) = false)
    by (apply Z.eqb_neq; lia).
  unfold emitted, exec.
  rewrite (handle_event_listener _ _ _ T L).
  accept_cases st.
  all: try destruct (lowest_free (open_fds (os st)) >? 0) eqn:P.
  all: cbn [snd fst Z.gtb Z.compare].
  all: try (erewrite since_app; [|reflexivity]).
  all: unfold accepted; cbn [flat_map app Z.eqb]; rewrite ?NE.
  all: intros A; try discriminate A.
  all: injection A as <-.
  all: cbn [self os backlog log_all set_open set_backlog set_nonblocking
            set_interest set_client_fd_list set_event client_fd_list
            open_fds nonblocking interest].
  all: split; [now left|]; split; [reflexivity|].
  all: first
    [ left; split;
      [ first [ left; reflexivity | right; eexists; reflexivity ]
      | repeat split; reflexivity ]
    | right; do 2 eexists; split; [reflexivity|]; split; [now left|];
      first
        [ left; reflexivity
        | right; split; [reflexivity|]; split; [|reflexivity];
          apply in_or_app; right; now left ] ].
Qed.

(** ** Order of the registry *)

Lemma subseq_refl {A} (l : list A) : subseq l l.
Proof. induction l; constructor; assumption. Qed.

Lemma subseq_nil_l {A} (l : list A) : subseq [] l.
Proof. induction l; constructor; assumption. Qed.

Lemma subseq_trans {A} (l1 l2 l3 : list A) :
  subseq l1 l2 -> subseq l2 l3 -> subseq l1 l3.
Proof.
  intros H12 H23. revert l1 H12.
  induction H23 as [|x l2 l3 H IH|x l2 l3 H IH]; intros l1 H12.
  - exact H12.
  - constructor. now apply IH.
  - inversion H12; subst; constructor; now apply IH.
Qed.

Lemma subseq_app {A} (l1 l2 m1 m2 : list A) :
  subseq l1 l2 -> subseq m1 m2 -> subseq (l1 ++ m1) (l2 ++ m2).
Proof.
  intros H1 H2. induction H1; simpl; try constructor; assumption.
Qed.

Lemma subseq_app_l {A} (l m : list A) : subseq l (l ++ m).
Proof.
  rewrite <- (app_nil_r l) at 1.
  apply subseq_app; [apply subseq_refl | apply subseq_nil_l].
Qed.

Lemma erase_first_subseq fd l : subseq (erase_first fd l) l.
Proof.
  induction l as [|x l IH]; simpl; [constructor|].
  destruct (x =? fd); constructor; [apply subseq_refl | exact IH].
Qed.

Lemma subseq_In {A} (l1 l2 : list A) x : subseq l1 l2 -> In x l1 -> In x l2.
Proof.
  induction 1; simpl; intros I; auto.
  destruct I as [->|I]; auto.
Qed.

Lemma accepted_app t1 t2 : accepted (t1 ++ t2) = accepted t1 ++ accepted t2.
Proof. apply flat_map_app. Qed.

Lemma accepted_map_write p l : accepted (map (fun x => Write x p) l) = [].
Proof. induction l as [|x l IH]; simpl; [reflexivity | exact IH]. Qed.

Lemma grows_refl st : grows st st.
Proof.
  exists []. rewrite !app_nil_r.
  repeat split; [apply subseq_refl].
Qed.

Lemma grows_trans st1 st2 st3 : grows st1 st2 -> grows st2 st3 -> grows st1 st3.
Proof.
  intros (es1 & T1 & S1 & R1 & F1) (es2 & T2 & S2 & R2 & F2).
  exists (es1 ++ es2). split; [|split; [|split; congruence]].
  - now rewrite T2, T1, app_assoc.
  - rewrite accepted_app, app_assoc.
    eapply subseq_trans; [exact S2|].
    apply subseq_app; [exact S1 | apply subseq_refl].
Qed.

Lemma grows_in_accept_order st st' :
  grows st st' -> in_accept_order st -> in_accept_order st'.
Proof.
  unfold in_accept_order. intros (es & T & S & _) I.
  rewrite T, accepted_app.
  eapply subseq_trans; [exact S|].
  apply subseq_app; [exact I | apply subseq_refl].
Qed.

(** The mask test of an entry with an error, a hangup or nothing to read. *)
Lemma handle_event_terminal epollfd e st :
  is_terminal (r_event e) = true ->
  handle_event epollfd e st = sys_close (data_fd (r_event e)) st.
Proof. intros T. unfold handle_event. now rewrite T. Qed.

Lemma handle_event_grows epollfd e st :
  grows st (exec (handle_event epollfd e) st).
Proof.
  destruct (is_terminal (r_event e)) eqn:T.
  { unfold exec. rewrite handle_event_terminal by assumption.
    exists [Close (data_fd (r_event e))].
    split; [reflexivity | split; [|split; reflexivity]].
    cbn. rewrite app_nil_r. apply subseq_refl. }
  destruct (Z.eq_dec (socketfd (self st)) (data_fd (r_event e))) as [L|L].
  { pose proof (lowest_free_nonneg (open_fds (os st))) as NN.
    assert (NE : (lowest_free (open_fds (os st)) =? -1) = false)
      by (apply Z.eqb_neq; lia).
    unfold exec. rewrite (handle_event_listener _ _ _ T L).
    accept_cases st.
    all: try destruct (lowest_free (open_fds (os st)) >? 0) eqn:P.
    all: cbn [snd fst Z.gtb Z.compare].
    all: eexists; (split; [reflexivity | split; [|split; reflexivity]]).
    all: unfold accepted; cbn [flat_map app Z.eqb]; rewrite ?NE.
    all: cbn [self os set_client_fd_list set_event client_fd_list app].
    all: first [ apply subseq_refl | apply subseq_app_l ]. }
  destruct (Z_lt_le_dec 0 (rd_size (r_read e))) as [S|S].
  - destruct (is_quit (r_read e)) eqn:Q.
    + unfold exec. rewrite (handle_event_drop _ _ _ T L (or_intror Q)).
      exists [Read (data_fd (r_event e)) (rd_size (r_read e));
              Close (data_fd (r_event e))].
      split; [cbn; now rewrite <- app_assoc | split; [|split; reflexivity]].
      cbn. rewrite app_nil_r. apply erase_first_subseq.
    + unfold exec. rewrite (handle_event_payload _ _ _ T L S Q).
      eexists. split; [reflexivity | split; [|split; reflexivity]].
      cbn [snd self accepted flat_map app].
      change (flat_map _ ?l) with (accepted l).
      rewrite accepted_map_write, app_nil_r. apply subseq_refl.
  - unfold exec. rewrite (handle_event_drop _ _ _ T L (or_introl S)).
    exists [Read (data_fd (r_event e)) (rd_size (r_read e));
            Close (data_fd (r_event e))].
    split; [cbn; now rewrite <- app_assoc | split; [|split; reflexivity]].
    cbn. rewrite app_nil_r. apply erase_first_subseq.
Qed.

Lemma for_each_cons {A} (x : A) l body st :
  exec (for_each (x :: l) body) st = exec (for_each l body) (exec (body x) st).
Proof.
  unfold exec. cbn [for_each]. unfold bind. now destruct (body x st).
Qed.

Lemma for_each_grows epollfd rs st :
  grows st (exec (for_each rs (handle_event epollfd)) st).
Proof.
  revert st. induction rs as [|r rs IH]; intros st.
  - apply grows_refl.
  - rewrite for_each_cons.
    eapply grows_trans; [apply handle_event_grows | apply IH].
Qed.

Lemma event_worker_iteration_eq epollfd b st :
  exec (event_worker_iteration epollfd b) st
  = exec (for_each (firstn (Z.to_nat tcp_epoll_max_events) (b_ready b))
                   (handle_event epollfd))
         (snd (sys_epoll_wait epollfd tcp_epoll_max_events b st)).
Proof. reflexivity. Qed.

Lemma event_worker_iteration_grows epollfd b st :
  grows st (exec (event_worker_iteration epollfd b) st).
Proof.
  rewrite event_worker_iteration_eq.
  eapply grows_trans; [|apply for_each_grows].
  eexists. split; [reflexivity | split; [|split; reflexivity]].
  cbn. rewrite app_nil_r. apply subseq_refl.
Qed.

Lemma event_worker_loop_grows epollfd script st :
  grows st (exec (event_worker_loop epollfd script) st).
Proof.
  revert st. induction script as [|b script IH]; intros st;
    unfold exec; cbn [event_worker_loop];
    destruct (isRunning (self st)); cbn [negb snd]; try apply grows_refl.
  eapply grows_trans; [apply event_worker_iteration_grows | apply IH].
Qed.

(** Construction and the worker's startup leave the registry alone. *)
Ltac split_ifs :=
  repeat match goal with
         | |- context [if ?c then _ else _] => destruct c
         end.

Lemma create_and_bind_registry host port st :
  client_fd_list (self (exec (create_and_bind host port) st))
  = client_fd_list (self st).
Proof.
  unfold exec, create_and_bind, bind, ret, upd_self, sys_socket, open_new,
    sys_setsockopt, sys_gethostbyname, sys_bind, sys_close, upd_os.
  split_ifs; reflexivity.
Qed.

Lemma constructor_registry host port st :
  client_fd_list (self (exec (TCP_Server_host_port host port) st))
  = client_fd_list (self st).
Proof.
  unfold exec, TCP_Server_host_port. unfold bind at 1.
  pose proof (create_and_bind_registry host port st) as H. unfold exec in H.
  destruct (create_and_bind host port st) as [r st1]. cbn [snd] in H.
  destruct (r =? 0); [|exact H].
  rewrite <- H. reflexivity.
Qed.

Lemma event_worker_startup_registry st :
  client_fd_list (self (exec event_worker_startup st))
  = client_fd_list (self st).
Proof.
  unfold exec, event_worker_startup, bind, ret, upd_self, get_self,
    sys_listen, sys_epoll_create1, open_new, sys_epoll_ctl_add.
  split_ifs; reflexivity.
Qed.

Lemma up_in_accept_order f script : in_accept_order (up f script).
Proof.
  unfold up, exec. unfold bind at 1.
  pose proof (constructor_registry "0.0.0.0" 9090 (initial f)) as C.
  unfold exec in C.
  change (TCP_Server_host_port "0.0.0.0" 9090) with (TCP_Server_port 9090) in C.
  destruct (TCP_Server_port 9090 (initial f)) as [[] st1]. cbn [snd] in C.
  unfold bind at 1.
  pose proof (event_worker_startup_registry st1) as S. unfold exec in S.
  destruct (event_worker_startup st1) as [started st2]. cbn [snd] in S.
  assert (I : in_accept_order st2).
  { unfold in_accept_order. rewrite S, C. apply subseq_nil_l. }
  destruct started as [epollfd|]; [|exact I].
  unfold bind.
  pose proof (event_worker_loop_grows epollfd script st2) as G.
  unfold exec in G.
  destruct (event_worker_loop epollfd script st2) as [b st3]. cbn [snd] in *.
  eapply grows_in_accept_order; eassumption.
Qed.

(** How one entry changes the registry: not at all, or by appending the
    descriptor just accepted, or by erasing the first entry equal to the
    descriptor of the entry. *)
Lemma handle_event_registry_step epollfd e st :
  client_fd_list (self (exec (handle_event epollfd e) st))
  = client_fd_list (self st)
  \/ (exists infd,
        accepted (emitted (handle_event epollfd e) st) = [infd]
        /\ client_fd_list (self (exec (handle_event epollfd e) st))
           = client_fd_list (self st) ++ [infd])
  \/ client_fd_list (self (exec (handle_event epollfd e) st))
     = erase_first (data_fd (r_event e)) (client_fd_list (self st)).
Proof.
  destruct (is_terminal (r_event e)) eqn:T.
  { left. unfold exec. now rewrite handle_event_terminal. }
  destruct (Z.eq_dec (socketfd (self st)) (data_fd (r_event e))) as [L|L].
  { pose proof (lowest_free_nonneg (open_fds (os st))) as NN.
    assert (NE : (lowest_free (open_fds (os st)) =? -1) = false)
      by (apply Z.eqb_neq; lia).
    unfold emitted, exec. rewrite (handle_event_listener _ _ _ T L).
    accept_cases st.
    all: try destruct (lowest_free (open_fds (os st)) >? 0) eqn:P.
    all: cbn [snd fst Z.gtb Z.compare].
    all: try (now left).
    right. left. exists (lowest_free (open_fds (os st))).
    erewrite since_app by reflexivity.
    unfold accepted. cbn [flat_map app]. rewrite NE. split; reflexivity. }
  destruct (Z_lt_le_dec 0 (rd_size (r_read e))) as [S|S].
  - destruct (is_quit (r_read e)) eqn:Q.
    + right. right. unfold exec.
      now rewrite (handle_event_drop _ _ _ T L (or_intror Q)).
    + left. unfold exec. now rewrite (handle_event_payload _ _ _ T L S Q).
  - right. right. unfold exec.
    now rewrite (handle_event_drop _ _ _ T L (or_introl S)).
Qed.

Lemma drop_subseq fd l : subseq (drop fd l) l.
Proof.
  induction l as [|x l IH]; simpl; [constructor|].
  destruct (negb (x =? fd)); constructor; exact IH.
Qed.

(** While the flag is true the worker stays in its loop, whatever the
    entries it is handed. *)
Lemma event_worker_loop_stays epollfd script st :
  isRunning (self st) = true ->
  eval (event_worker_loop epollfd script) st = false
  /\ isRunning (self (exec (event_worker_loop epollfd script) st)) = true.
Proof.
  revert st. induction script as [|b script IH]; intros st R;
    unfold eval, exec; cbn [event_worker_loop]; rewrite R; cbn [negb fst snd].
  - auto.
  - apply IH.
    destruct (event_worker_iteration_grows epollfd b st) as (_ & _ & _ & E & _).
    congruence.
Qed.

(** C9.  When a client's data is forwarded, the descriptors written to
    are, in this order, the entries of the registry vector other than the
    sender.  The registry vector is in insertion order: an entry of a batch
    changes it only by appending the descriptor [accept] just returned at
    its end, or by erasing one entry and keeping the order of the others,
    so that in every run of the server from its construction the registry
    lists descriptors in the order in which [accept] returned them, and so
    do the recipients.  The sequence of recipients depends on the registry
    and the sender only: any other forwarding from the same sender over the
    same registry writes to the same descriptors in the same order. *)
Theorem fanout_follows_accept_order f script epollfd e :
  is_terminal (r_event e) = false ->
  socketfd (self (up f script)) <> data_fd (r_event e) ->
  0 < rd_size (r_read e) ->
  is_quit (r_read e) = false ->
  recipients (emitted (handle_event epollfd e) (up f script))
    = drop (data_fd (r_event e)) (client_fd_list (self (up f script)))
  /\ subseq (client_fd_list (self (up f script)))
            (accepted (trace (os (up f script))))
  /\ subseq (recipients (emitted (handle_event epollfd e) (up f script)))
            (accepted (trace (os (up f script))))
  /\ (forall st0 epollfd0 e0,
        client_fd_list (self (exec (handle_event epollfd0 e0) st0))
        = client_fd_list (self st0)
        \/ (exists infd,
              accepted (emitted (handle_event epollfd0 e0) st0) = [infd]
              /\ client_fd_list (self (exec (handle_event epollfd0 e0) st0))
                 = client_fd_list (self st0) ++ [infd])
        \/ client_fd_list (self (exec (handle_event epollfd0 e0) st0))
           = erase_first (data_fd (r_event e0)) (client_fd_list (self st0)))
  /\ (forall st2 epollfd2 e2,
        is_terminal (r_event e2) = false ->
        socketfd (self st2) <> data_fd (r_event e2) ->
        0 < rd_size (r_read e2) ->
        is_quit (r_read e2) = false ->
        data_fd (r_event e2) = data_fd (r_event e) ->
        client_fd_list (self st2) = client_fd_list (self (up f script)) ->
        recipients (emitted (handle_event epollfd2 e2) st2)
        = recipients (emitted (handle_event epollfd e) (up f script))).
Proof.
  intros T L S Q.
  assert (R : forall st epollfd e,
             is_terminal (r_event e) = false ->
             socketfd (self st) <> data_fd (r_event e) ->
             0 < rd_size (r_read e) ->
             is_quit (r_read e) = false ->
             recipients (emitted (handle_event epollfd e) st)
             = drop (data_fd (r_event e)) (client_fd_list (self st))).
  { intros st ep ev T' L' S' Q'.
    destruct (fanout_payload_shape ep ev st T' L' S' Q') as (E & _).
    rewrite E. cbn [recipients flat_map app].
    apply (recipients_map (payload (r_read ev))). }
  pose proof (up_in_accept_order f script) as I. unfold in_accept_order in I.
  split; [now apply R|]. split; [exact I|]. split; [|split].
  - rewrite R by assumption.
    eapply subseq_trans; [apply drop_subseq | exact I].
  - intros st0 ep0 e0. apply handle_event_registry_step.
  - intros st2 ep2 e2 T2 L2 S2 Q2 F2 C2.
    rewrite !R by assumption. now rewrite F2, C2.
Qed.

(** ** Terminal entries, shutdown and destruction *)

Lemma sys_close_spec fd st :
  sys_close fd st
  = (tt, mkState (self st)
           (log (Close fd)
              (set_interest (filter (fun p => negb (fst p =? fd))
                                    (interest (os st)))
                 (set_nonblocking (drop fd (nonblocking (os st)))
                    (set_open (drop fd (open_fds (os st))) (os st)))))).
Proof. reflexivity. Qed.

(** C3, as amended.  For every readiness entry whose mask has the error
    bit set, or the hangup bit set, or the readable bit clear, the
    dispatcher closes the descriptor and issues no other call: afterwards
    the descriptor is neither open nor armed.  When the descriptor is the
    listener the dispatcher does not leave its loop: the running flag is
    untouched, the remaining entries of the batch are handled, and with the
    flag true the worker is still looping after any further batches. *)
Theorem terminal_event_closes epollfd e st :
  is_terminal (r_event e) = true ->
  emitted (handle_event epollfd e) st = [Close (data_fd (r_event e))]
  /\ ~ In (data_fd (r_event e))
         (open_fds (os (exec (handle_event epollfd e) st)))
  /\ (forall mask, ~ In (data_fd (r_event e), mask)
                       (interest (os (exec (handle_event epollfd e) st))))
  /\ isRunning (self (exec (handle_event epollfd e) st)) = isRunning (self st)
  /\ (forall rest,
        exec (for_each (e :: rest) (handle_event epollfd)) st
        = exec (for_each rest (handle_event epollfd))
               (exec (handle_event epollfd e) st))
  /\ (forall st0 b script,
        In e (b_ready b) ->
        socketfd (self st0) = data_fd (r_event e) ->
        isRunning (self st0) = true ->
        eval (event_worker_loop epollfd (b :: script)) st0 = false
        /\ isRunning (self (exec (event_worker_loop epollfd (b :: script)) st0))
           = true).
Proof.
  intros T. unfold emitted, exec at 1 2 3 4.
  rewrite (handle_event_terminal _ _ _ T), sys_close_spec. cbn [snd].
  split; [now apply since_app|]. split; [|split; [|split; [|split]]].
  - cbn. rewrite in_drop. tauto.
  - intros mask. cbn. rewrite filter_In. cbn [fst].
    rewrite Z.eqb_refl. intros [_ H]. discriminate H.
  - reflexivity.
  - intros rest. apply for_each_cons.
  - intros st0 b script _ _ R. now apply event_worker_loop_stays.
Qed.

(** C6, as amended.  When the dispatcher leaves its loop, the worker
    publishes offline, closes the listener and the epoll descriptor, in
    this order, and returns.  It closes nothing else and does not touch the
    registry: the clients still registered stay registered and every
    descriptor other than those two is open afterwards exactly when it was
    open before. *)
Theorem shutdown_closes_listener_and_epoll epollfd script st :
  eval (event_worker_loop epollfd script) st = true ->
  eval (event_worker_from epollfd script) st = true
  /\ since (exec (event_worker_loop epollfd script) st)
           (exec (event_worker_from epollfd script) st)
     = [Close (socketfd (self st)); Close epollfd]
  /\ worker_state (self (exec (event_worker_from epollfd script) st)) = false
  /\ client_fd_list (self (exec (event_worker_from epollfd script) st))
     = client_fd_list (self (exec (event_worker_loop epollfd script) st))
  /\ (forall c, c <> socketfd (self st) -> c <> epollfd ->
        (In c (open_fds (os (exec (event_worker_from epollfd script) st)))
         <-> In c (open_fds
                     (os (exec (event_worker_loop epollfd script) st))))).
Proof.
  intros X.
  destruct (event_worker_loop_grows epollfd script st) as (_ & _ & _ & _ & F).
  unfold eval, exec in *. unfold event_worker_from, bind.
  destruct (event_worker_loop epollfd script st) as [left st1].
  cbn [fst snd] in *. subst left. rewrite <- F.
  unfold event_worker_shutdown, bind, upd_self, get_self, ret.
  rewrite !sys_close_spec.
  cbn [fst snd self os set_worker_state socketfd worker_state client_fd_list
       log trace set_interest set_nonblocking set_open open_fds nonblocking
       interest].
  split; [reflexivity|]. split; [|split; [reflexivity|split; [reflexivity|]]].
  - apply since_app. cbn. now rewrite <- app_assoc.
  - intros c N1 N2. rewrite !in_drop. tauto.
Qed.

Ltac split_ifs_eq :=
  repeat match goal with
         | |- context [if ?c then _ else _] => destruct c eqn:?
         end.

(** When [bind] cannot succeed, [create_and_bind] reports failure, starts
    no thread and leaves the thread member alone. *)
Lemma create_and_bind_refused host port st :
  bind_ret (env (os st)) <> 0 ->
  eval (create_and_bind host port) st = -1
  /\ epoll_worker (self (exec (create_and_bind host port) st))
     = epoll_worker (self st)
  /\ ~ In ThreadStart (emitted (create_and_bind host port) st).
Proof.
  intros B. unfold emitted, since, eval, exec.
  unfold create_and_bind, bind, ret, upd_self, sys_socket, open_new,
    sys_setsockopt, sys_gethostbyname, sys_bind, sys_close, upd_os.
  destruct st as [s [o n i b t v]].
  cbn [os self env open_fds trace bind_ret] in *.
  split_ifs_eq.
  all: cbn [fst snd self os trace log set_interest set_nonblocking set_open
            epoll_worker set_socketfd env open_fds bind_ret] in *.
  all: try (exfalso;
            match goal with
            | H : negb (_ =? 0) = false |- _ =>
                apply negb_false_iff, Z.eqb_eq in H; cbn in H; congruence
            end).
  all: split; [reflexivity|]; split; [reflexivity|].
  all: rewrite <- ?app_assoc, skipn_app, skipn_all, Nat.sub_diag.
  all: cbn; intuition discriminate.
Qed.

(** C10.  The destructor calls [stop_event_worker], which calls
    [epoll_worker.join()] whatever the state of the thread member: there is
    no test of [joinable()].  In particular, after a construction that
    failed at [bind] no thread was started, the member is not joinable, and
    destroying the object still performs the join, which then throws
    instead of returning. *)
Theorem destructor_joins_unguarded host port rest st :
  epoll_worker (self st) = NotAThread ->
  bind_ret (env (os st)) <> 0 ->
  epoll_worker (self (exec (TCP_Server_host_port host port) st)) = NotAThread
  /\ ~ In ThreadStart (emitted (TCP_Server_host_port host port) st)
  /\ emitted (TCP_Server_destroy rest)
             (exec (TCP_Server_host_port host port) st) = [ThreadJoin false]
  /\ eval (TCP_Server_destroy rest)
          (exec (TCP_Server_host_port host port) st) = false
  /\ (forall st2 rest2,
        joinable (epoll_worker (self st2)) = false ->
        emitted (TCP_Server_destroy rest2) st2 = [ThreadJoin false]
        /\ eval (TCP_Server_destroy rest2) st2 = false
        /\ isRunning (self (exec (TCP_Server_destroy rest2) st2)) = false)
  /\ (forall st2 rest2,
        joinable (epoll_worker (self st2)) = true ->
        eval (TCP_Server_destroy rest2) st2 = true
        /\ exists t, trace (os (exec (TCP_Server_destroy rest2) st2))
                     = t ++ [ThreadJoin true]).
Proof.
  intros N B.
  assert (J : forall st2 rest2,
        joinable (epoll_worker (self st2)) = false ->
        emitted (TCP_Server_destroy rest2) st2 = [ThreadJoin false]
        /\ eval (TCP_Server_destroy rest2) st2 = false
        /\ isRunning (self (exec (TCP_Server_destroy rest2) st2)) = false).
  { intros st2 rest2 NJ. unfold emitted, eval, exec.
    unfold TCP_Server_destroy, stop_event_worker, thread_join, bind,
      upd_self, get_self, upd_os, ret.
    cbn [self os set_isRunning epoll_worker]. rewrite NJ. cbn [fst snd].
    split; [now apply since_app | split; reflexivity]. }
  destruct (create_and_bind_refused host port st B) as (R & W & S).
  assert (C : exec (TCP_Server_host_port host port) st
              = exec (create_and_bind host port) st).
  { unfold eval, exec in *. unfold TCP_Server_host_port, bind.
    destruct (create_and_bind host port st) as [r st1]. cbn [fst snd] in *.
    subst r. reflexivity. }
  assert (NT : epoll_worker (self (exec (TCP_Server_host_port host port) st))
               = NotAThread) by (rewrite C; congruence).
  split; [exact NT|]. split; [unfold emitted; now rewrite C|].
  destruct (J (exec (TCP_Server_host_port host port) st) rest) as (J1 & J2 & _).
  { now rewrite NT. }
  split; [exact J1|]. split; [exact J2|]. split; [exact J|].
  intros st2 rest2 Y. unfold eval, exec.
  unfold TCP_Server_destroy, stop_event_worker, thread_join, bind,
    upd_self, get_self, upd_os, ret.
  cbn [self os set_isRunning epoll_worker]. rewrite Y.
  destruct (rest2 _) as [[] st3]. cbn [fst snd self os log trace].
  split; [reflexivity | eexists; reflexivity].
Qed.

(** C4, at a failing input.  A client is accepted as descriptor 5 and then
    reported with an error and a hangup: at the next loop boundary the
    descriptor is closed (not open, not armed) and still in the registry.
    The next connection is given the free number 5 again and is pushed as
    a second entry, so a message from client 6 is then written to
    descriptor 5 twice. *)
Theorem closed_client_stays_registered :
  client_fd_list (self (up no_faults [connect; reset5])) = [5]
  /\ closes (trace (os (up no_faults [connect; reset5]))) = [5]
  /\ mem 5 (open_fds (os (up no_faults [connect; reset5]))) = false
  /\ interest (os (up no_faults [connect; reset5])) = [(3, interest_mask)]
  /\ client_fd_list (self (up no_faults [connect; connect; reset5; connect]))
     = [5; 6; 5]
  /\ emitted (handle_event 4 (incoming 6 "x"))
             (up no_faults [connect; connect; reset5; connect])
     = [Read 6 1; Write 5 ["x"%char]; Write 5 ["x"%char]].
Proof. vm_compute. repeat split; reflexivity. Qed.

(** C7, at two failing inputs.  When [listen] fails, and when
    [epoll_create1] fails, the worker returns before it publishes online
    ([worker_state] stays false), but [isAlive] returns [isRunning], which
    [start_event_worker] had set: the liveness check reports alive and
    [main] carries on as if the server had started.  When [socket] or
    [bind] fails no thread is started and [isAlive] returns what the
    storage of the object held. *)
Theorem failed_startup_reports_alive :
  (eval event_worker_startup
         (exec (TCP_Server_port 9090) (initial listen_refused))
   = None
   /\ worker_state (self (up listen_refused [])) = false
   /\ eval isAlive (up listen_refused []) = true
   /\ eval (main []) (initial listen_refused) = Some 0)
  /\ (eval event_worker_startup
            (exec (TCP_Server_port 9090) (initial epoll_create_refused))
      = None
      /\ worker_state (self (up epoll_create_refused [])) = false
      /\ eval isAlive (up epoll_create_refused []) = true
      /\ eval (main []) (initial epoll_create_refused) = Some 0)
  /\ (forall fd ws run,
        epoll_worker
          (self (exec (TCP_Server_port 9090)
                      (mkState (raw_object fd ws run) (boot bind_refused))))
        = NotAThread
        /\ eval isAlive
             (exec (TCP_Server_port 9090)
                   (mkState (raw_object fd ws run) (boot bind_refused)))
           = run)
  /\ (forall fd ws run,
        epoll_worker
          (self (exec (TCP_Server_port 9090)
                      (mkState (raw_object fd ws run) (boot socket_refused))))
        = NotAThread
        /\ eval isAlive
             (exec (TCP_Server_port 9090)
                   (mkState (raw_object fd ws run) (boot socket_refused)))
           = run).
Proof.
  split; [vm_compute; auto|]. split; [vm_compute; auto|].
  split; intros fd ws run; vm_compute; auto.
Qed.

(** C1, at a failing input.  Clients are accepted as descriptors 5 and
    6; descriptor 5 is reported with an error and a hangup and closed
    without being erased; the next connection is given the number 5 again
    and pushed as a further entry.  A message of one byte from client 6,
    which is not the sentinel, is then written to descriptor 5 twice: the
    other client does not get it exactly once. *)
Theorem fanout_writes_twice_after_reuse :
  client_fd_list (self (up no_faults [connect; connect; reset5; connect]))
  = [5; 6; 5]
  /\ is_terminal (r_event (incoming 6 "x")) = false
  /\ 0 < rd_size (r_read (incoming 6 "x"))
  /\ is_quit (r_read (incoming 6 "x")) = false
  /\ emitted (handle_event 4 (incoming 6 "x"))
             (up no_faults [connect; connect; reset5; connect])
     = [Read 6 1; Write 5 ["x"%char]; Write 5 ["x"%char]]
  /\ writes_to 5 (emitted (handle_event 4 (incoming 6 "x"))
                          (up no_faults [connect; connect; reset5; connect]))
     = [["x"%char]; ["x"%char]].
Proof. vm_compute. repeat split; reflexivity. Qed.

(** C2, at a failing input.  In the same run the registry is 5, 6, 5.
    The client now on descriptor 5 sends six bytes starting with [quit]:
    the sentinel is recognised, nothing is forwarded and descriptor 5 is
    closed, but only the first entry for 5 is erased, so descriptor 5 is
    still in the registry after the close: it is not unregistered. *)
Theorem quit_leaves_reused_descriptor_registered :
  client_fd_list (self (up no_faults [connect; connect; reset5; connect]))
  = [5; 6; 5]
  /\ is_quit (r_read (incoming 5 "quitXY")) = true
  /\ emitted (handle_event 4 (incoming 5 "quitXY"))
             (up no_faults [connect; connect; reset5; connect])
     = [Read 5 6; Close 5]
  /\ client_fd_list
       (self (exec (handle_event 4 (incoming 5 "quitXY"))
                   (up no_faults [connect; connect; reset5; connect])))
     = [6; 5]
  /\ mem 5 (open_fds
              (os (exec (handle_event 4 (incoming 5 "quitXY"))
                        (up no_faults [connect; connect; reset5; connect]))))
     = false.
Proof. vm_compute. repeat split; reflexivity. Qed.

(** ** Runs on which statements of the specification fail *)

(** C3 as stated fails.  A client reported with a hangup is closed but
    stays in the registry; and after the listener was reported with an
    error the dispatcher is still in its loop: it handles the next entry of
    the batch and the next batch. *)
Lemma terminal_event_keeps_entry_and_loop :
  (is_terminal (r_event (signalled 5 (Z.lor EPOLLIN EPOLLHUP))) = true
   /\ client_fd_list (self (up no_faults [connect])) = [5]
   /\ emitted (handle_event 4 (signalled 5 (Z.lor EPOLLIN EPOLLHUP)))
              (up no_faults [connect]) = [Close 5]
   /\ client_fd_list
        (self (exec (handle_event 4 (signalled 5 (Z.lor EPOLLIN EPOLLHUP)))
                    (up no_faults [connect]))) = [5])
  /\ (socketfd (self (up no_faults [connect])) = 3
      /\ is_terminal (r_event (signalled 3 EPOLLERR)) = true
      /\ emitted (event_worker_loop 4 listener_error) (up no_faults [connect])
         = [EpollWait 4 2; Close 3; Read 5 1; EpollWait 4 1; Read 5 1]
      /\ eval (event_worker_loop 4 listener_error) (up no_faults [connect])
         = false).
Proof. vm_compute. repeat split; reflexivity. Qed.

(** C5 as stated fails.  With two connections pending when the listener
    is reported, the accept helper is called once and never reports
    drained: one connection is accepted and the other is still queued
    when the batch is done. *)
Lemma listener_event_leaves_connection_pending :
  emitted (event_worker_iteration 4 connect_two) (up no_faults [])
    = [EpollWait 4 1; Accept 3 5; FcntlGetfl 5 2; FcntlSetfl 5 2050 0;
       EpollCtlAdd 4 5 interest_mask 0]
  /\ backlog (os (up no_faults [connect_two])) = [Established]
  /\ client_fd_list (self (up no_faults [connect_two])) = [5].
Proof. vm_compute. repeat split; reflexivity. Qed.

(** C6 as stated fails.  [main] runs with two clients connected until
    SIGINT and returns 0: the only descriptors ever closed are the
    listener and the epoll descriptor; both clients are still open and
    still in the registry. *)
Lemma shutdown_leaves_clients_open :
  eval (main [connect; connect]) (initial no_faults) = Some 0
  /\ closes (trace (os (exec (main [connect; connect]) (initial no_faults))))
     = [3; 4]
  /\ client_fd_list (self (exec (main [connect; connect]) (initial no_faults)))
     = [5; 6]
  /\ open_fds (os (exec (main [connect; connect]) (initial no_faults)))
     = [6; 5; 0; 1; 2].
Proof. vm_compute. repeat split; reflexivity. Qed.

(** C8 as stated fails.  [accept] returns descriptor 5 and [F_GETFL]
    fails on it: the descriptor is not armed and not registered, but it is
    not closed either. *)
Lemma nonblocking_failure_leaves_descriptor_open :
  emitted (event_worker_iteration 4 connect) (up (getfl_refused_on 5) [])
    = [EpollWait 4 1; Accept 3 5; FcntlGetfl 5 (-1)]
  /\ client_fd_list (self (up (getfl_refused_on 5) [connect])) = []
  /\ interest (os (up (getfl_refused_on 5) [connect])) = [(3, interest_mask)]
  /\ mem 5 (open_fds (os (up (getfl_refused_on 5) [connect]))) = true
  /\ closes (trace (os (up (getfl_refused_on 5) [connect]))) = [].
Proof. vm_compute. repeat split; reflexivity. Qed.

(** ** The theorems on concrete runs *)

(** Scenario 2 of the specification: of three clients, the second sends
    one byte. *)
Example three_clients_one_byte :
  emitted (handle_event 4 (incoming 6 "x"))
          (up no_faults [connect; connect; connect])
  = [Read 6 1; Write 5 ["x"%char]; Write 7 ["x"%char]].
Proof. vm_compute. reflexivity. Qed.

(** Scenario 4: the four bytes [quit] are forwarded. *)
Example four_byte_quit_is_forwarded :
  emitted (handle_event 4 (incoming 5 "quit"))
          (up no_faults [connect; connect])
  = [Read 5 4; Write 6 (list_ascii_of_string "quit")].
Proof. vm_compute. reflexivity. Qed.

(** [terminal_event_closes] on a client reported with a hangup. *)
Lemma terminal_event_closes_witness :
  is_terminal (r_event (signalled 5 (Z.lor EPOLLIN EPOLLHUP))) = true
  /\ emitted (handle_event 4 (signalled 5 (Z.lor EPOLLIN EPOLLHUP)))
             (up no_faults [connect]) = [Close 5].
Proof.
  assert (T : is_terminal (r_event (signalled 5 (Z.lor EPOLLIN EPOLLHUP)))
              = true) by reflexivity.
  split; [exact T|].
  exact (proj1 (terminal_event_closes 4 _ (up no_faults [connect]) T)).
Defined.

(** [listener_event_accepts_once] on the listener with one connection
    queued. *)
Lemma listener_event_accepts_once_witness :
  socketfd (self (one_pending no_faults)) = 3
  /\ accept_calls (emitted (handle_event 4 (signalled 3 EPOLLIN))
                           (one_pending no_faults)) = 1%nat.
Proof.
  assert (T : is_terminal (r_event (signalled 3 EPOLLIN)) = false)
    by reflexivity.
  assert (L : socketfd (self (one_pending no_faults))
              = data_fd (r_event (signalled 3 EPOLLIN)))
    by (vm_compute; reflexivity).
  split; [exact L|].
  exact (proj1 (listener_event_accepts_once 4 _ _ T L)).
Defined.

(** [shutdown_closes_listener_and_epoll] on a server with one client, once
    the running flag is cleared. *)
Lemma shutdown_closes_listener_and_epoll_witness :
  eval (event_worker_loop 4 []) (stop_requested (up no_faults [connect]))
  = true
  /\ worker_state
       (self (exec (event_worker_from 4 [])
                   (stop_requested (up no_faults [connect])))) = false.
Proof.
  assert (X : eval (event_worker_loop 4 [])
                   (stop_requested (up no_faults [connect])) = true)
    by (vm_compute; reflexivity).
  split; [exact X|].
  destruct (shutdown_closes_listener_and_epoll 4 [] _ X) as (_ & _ & W & _).
  exact W.
Defined.

(** [nonblocking_before_arming] on a connection accepted as descriptor 5. *)
Lemma nonblocking_before_arming_witness :
  accepted (emitted (handle_event 4 (signalled 3 EPOLLIN))
                    (one_pending no_faults)) = [5]
  /\ In 5 (open_fds (os (exec (handle_event 4 (signalled 3 EPOLLIN))
                              (one_pending no_faults)))).
Proof.
  assert (T : is_terminal (r_event (signalled 3 EPOLLIN)) = false)
    by reflexivity.
  assert (L : socketfd (self (one_pending no_faults))
              = data_fd (r_event (signalled 3 EPOLLIN)))
    by (vm_compute; reflexivity).
  assert (A : accepted (emitted (handle_event 4 (signalled 3 EPOLLIN))
                                (one_pending no_faults)) = [5])
    by (vm_compute; reflexivity).
  split; [exact A|].
  exact (proj1 (nonblocking_before_arming 4 _ _ 5 T L A)).
Defined.

(** [fanout_follows_accept_order] on clients accepted as 5, 6 and 7, with
    6 sending. *)
Lemma fanout_follows_accept_order_witness :
  0 < rd_size (r_read (incoming 6 "x"))
  /\ recipients (emitted (handle_event 4 (incoming 6 "x"))
                         (up no_faults [connect; connect; connect]))
     = [5; 7].
Proof.
  assert (T : is_terminal (r_event (incoming 6 "x")) = false) by reflexivity.
  assert (L : socketfd (self (up no_faults [connect; connect; connect]))
              <> data_fd (r_event (incoming 6 "x")))
    by (vm_compute; discriminate).
  assert (S : 0 < rd_size (r_read (incoming 6 "x"))) by reflexivity.
  assert (Q : is_quit (r_read (incoming 6 "x")) = false) by reflexivity.
  split; [exact S|].
  destruct (fanout_follows_accept_order no_faults [connect; connect; connect]
              4 _ T L S Q) as (R & _).
  rewrite R. vm_compute. reflexivity.
Defined.

(** [destructor_joins_unguarded] on a server whose [bind] was refused. *)
Lemma destructor_joins_unguarded_witness :
  bind_ret (env (os (initial bind_refused))) <> 0
  /\ emitted (TCP_Server_destroy (ret tt))
             (exec (TCP_Server_host_port "0.0.0.0" 9090)
                   (initial bind_refused))
     = [ThreadJoin false].
Proof.
  assert (N : epoll_worker (self (initial bind_refused)) = NotAThread)
    by reflexivity.
  assert (B : bind_ret (env (os (initial bind_refused))) <> 0)
    by (vm_compute; discriminate).
  split; [exact B|].
  destruct (destructor_joins_unguarded "0.0.0.0" 9090 (ret tt) _ N B)
    as (_ & _ & J & _).
  exact J.
Defined.

(** ** Creating and binding the listener *)

Lemma NoDup_map_injective {A B} (f : A -> B) l :
  (forall a b, f a = f b -> a = b) -> NoDup l -> NoDup (map f l).
Proof.
  intros Inj. induction 1 as [|x l N ND IH]; simpl; constructor; auto.
  rewrite in_map_iff. intros (y & E & I). apply Inj in E. now subst.
Qed.

Lemma lowest_free_fresh l : ~ In (lowest_free l) l.
Proof.
  unfold lowest_free.
  destruct (find _ _) as [n|] eqn:F.
  - apply find_some in F. destruct F as [_ F].
    apply negb_true_iff in F. intros I. apply mem_true_iff in I. congruence.
  - exfalso.
    assert (I : incl (map Z.of_nat (seq 0 (S (List.length l)))) l).
    { intros x Hx. pose proof (find_none _ _ F x Hx) as N.
      apply negb_false_iff in N. now apply mem_true_iff. }
    assert (ND : NoDup (map Z.of_nat (seq 0 (S (List.length l))))).
    { apply NoDup_map_injective; [|apply seq_NoDup].
      intros a b. apply Nat2Z.inj. }
    pose proof (NoDup_incl_length ND I) as LE.
    rewrite length_map, length_seq in LE. lia.
Qed.

Lemma lowest_free_zero l : ~ In 0 l -> lowest_free l = 0.
Proof.
  intros N. unfold lowest_free. cbn [seq map find].
  change (Z.of_nat 0) with 0.
  destruct (mem 0 l) eqn:M; [apply mem_true_iff in M; contradiction|].
  reflexivity.
Qed.

Lemma drop_fresh fd l : ~ In fd l -> drop fd l = l.
Proof.
  intros N. induction l as [|x l IH]; simpl; [reflexivity|].
  destruct (x =? fd) eqn:E.
  - apply Z.eqb_eq in E. subst. exfalso. apply N. now left.
  - simpl. f_equal. apply IH. intros I. apply N. now right.
Qed.

Lemma mem_false_iff x l : mem x l = false <-> ~ In x l.
Proof. rewrite <- mem_true_iff. destruct (mem x l); intuition congruence. Qed.

(** What [create_and_bind] does once [socket] returned a descriptor. *)
Lemma create_and_bind_eq host port st :
  socket_fails (env (os st)) = false ->
  create_and_bind host port st
  = let fd := lowest_free (open_fds (os st)) in
    let s1 := set_socketfd fd (self st) in
    let k1 := set_open (fd :: open_fds (os st)) (os st) in
    let named := negb (String.eqb host "INADDR_ANY") in
    let pre := Socket fd :: Setsockopt fd (setsockopt_ret (env (os st)))
               :: (if named
                   then [Gethostbyname host (resolves (env (os st)))]
                   else []) in
    if fd =? 0 then (-1, mkState s1 (log_all [Socket fd] k1))
    else if named && negb (resolves (env (os st))) then
      (-1, mkState s1 (log_all pre k1))
    else if bind_ret (env (os st)) =? 0 then
      (0, mkState s1 (log_all (pre ++ [Bind fd port 0]) k1))
    else
      (-1, exec (sys_close fd)
             (mkState s1
                (log_all (pre ++ [Bind fd port (bind_ret (env (os st)))])
                         k1))).
Proof.
  intros SF. destruct st as [s [o n i b t v]].
  cbn [os self env open_fds] in *.
  unfold create_and_bind, bind, ret, upd_self, sys_socket, open_new,
    sys_setsockopt, sys_gethostbyname, sys_bind, exec, sys_close, upd_os,
    log_all, log, set_open, set_interest, set_nonblocking.
  cbn [os self env open_fds nonblocking interest backlog trace]. rewrite SF.
  cbn [os self env open_fds nonblocking interest backlog trace].
  destruct (lowest_free o =? 0) eqn:Z0; [reflexivity|].
  destruct (negb (String.eqb host "INADDR_ANY")) eqn:Nm;
    cbn [os self env open_fds nonblocking interest backlog trace andb negb];
    [destruct (resolves v) eqn:R; cbn [negb]|].
  all: cbn [os self env open_fds nonblocking interest backlog trace];
    rewrite ?mem_head.
  all: try (destruct (bind_ret v =? 0) eqn:B; cbn [negb];
            [apply Z.eqb_eq in B; rewrite B|]).
  all: cbn [os self env open_fds nonblocking interest backlog trace snd app];
    now rewrite <- ?app_assoc.
Qed.

(** What [create_and_bind] does when [socket] failed: the result [-1] is
    compared with [0] and the function goes on with descriptor [-1]. *)
Lemma create_and_bind_socket_failed host port st :
  socket_fails (env (os st)) = true ->
  ~ In (-1) (open_fds (os st)) ->
  create_and_bind host port st
  = let s1 := set_socketfd (-1) (self st) in
    let named := negb (String.eqb host "INADDR_ANY") in
    let pre := Socket (-1) :: Setsockopt (-1) (setsockopt_ret (env (os st)))
               :: (if named
                   then [Gethostbyname host (resolves (env (os st)))]
                   else []) in
    if named && negb (resolves (env (os st))) then
      (-1, mkState s1 (log_all pre (os st)))
    else
      (-1, exec (sys_close (-1))
             (mkState s1 (log_all (pre ++ [Bind (-1) port (-1)]) (os st)))).
Proof.
  intros SF NO. destruct st as [s [o n i b t v]].
  cbn [os self env open_fds] in *. apply mem_false_iff in NO.
  unfold create_and_bind, bind, ret, upd_self, sys_socket, open_new,
    sys_setsockopt, sys_gethostbyname, sys_bind, exec, sys_close, upd_os,
    log_all, log, set_open, set_interest, set_nonblocking.
  cbn [os self env open_fds nonblocking interest backlog trace]. rewrite SF.
  cbn [os self env open_fds nonblocking interest backlog trace Z.eqb].
  destruct (negb (String.eqb host "INADDR_ANY")) eqn:Nm;
    cbn [os self env open_fds nonblocking interest backlog trace andb negb];
    [destruct (resolves v) eqn:R; cbn [negb]|].
  all: cbn [os self env open_fds nonblocking interest backlog trace];
    rewrite ?NO.
  all: cbn [os self env open_fds nonblocking interest backlog trace snd app
            Z.eqb negb];
    now rewrite <- ?app_assoc.
Qed.

Lemma eqb_INADDR_ANY host :
  negb (String.eqb host "INADDR_ANY") = false <-> host = "INADDR_ANY"%string.
Proof. rewrite negb_false_iff. apply String.eqb_eq. Qed.

(** X1.  [create_and_bind] returns 0 or -1, and 0 exactly when [socket]
    gave a descriptor other than 0, the host is the literal [INADDR_ANY]
    or was resolved, and [bind] returned 0; the result of [setsockopt]
    plays no part.  On success the member [socketfd] is the new descriptor,
    which was not open before and is open now, and nothing was closed. *)
Theorem create_and_bind_result host port st :
  ~ In (-1) (open_fds (os st)) ->
  (eval (create_and_bind host port) st = 0
   \/ eval (create_and_bind host port) st = -1)
  /\ (eval (create_and_bind host port) st = 0
      <-> socket_fails (env (os st)) = false
          /\ lowest_free (open_fds (os st)) <> 0
          /\ (host = "INADDR_ANY"%string \/ resolves (env (os st)) = true)
          /\ bind_ret (env (os st)) = 0)
  /\ (eval (create_and_bind host port) st = 0 ->
      socketfd (self (exec (create_and_bind host port) st))
      = lowest_free (open_fds (os st))
      /\ open_fds (os (exec (create_and_bind host port) st))
         = lowest_free (open_fds (os st)) :: open_fds (os st)
      /\ ~ In (lowest_free (open_fds (os st))) (open_fds (os st))
      /\ closes (emitted (create_and_bind host port) st) = []).
Proof.
  intros NO. pose proof (lowest_free_fresh (open_fds (os st))) as FR.
  unfold emitted, eval, exec.
  destruct (socket_fails (env (os st))) eqn:SF.
  - rewrite (create_and_bind_socket_failed host port st SF NO). cbv zeta.
    destruct (negb (String.eqb host "INADDR_ANY")
              && negb (resolves (env (os st))));
      cbn [fst snd].
    all: split; [now right|]; split;
      [split; [discriminate | intros (H & _); discriminate]|discriminate].
  - rewrite (create_and_bind_eq host port st SF). cbv zeta.
    destruct (lowest_free (open_fds (os st)) =? 0) eqn:Z0.
    { apply Z.eqb_eq in Z0. cbn [fst snd].
      split; [now right|]. split; [|discriminate].
      split; [discriminate | intros (_ & H & _); contradiction]. }
    apply Z.eqb_neq in Z0.
    destruct (negb (String.eqb host "INADDR_ANY")) eqn:Nm.
    + assert (HN : host <> "INADDR_ANY"%string).
      { intros E. apply eqb_INADDR_ANY in E. congruence. }
      destruct (resolves (env (os st))) eqn:R; cbn [andb negb].
      * destruct (bind_ret (env (os st)) =? 0) eqn:B; cbn [fst snd].
        -- apply Z.eqb_eq in B. split; [now left|]. split; [tauto|].
           intros _. erewrite since_app by reflexivity.
           repeat split; auto.
        -- apply Z.eqb_neq in B. split; [now right|].
           split; [|discriminate].
           split; [discriminate | intros (_ & _ & _ & H); contradiction].
      * cbn [fst snd]. split; [now right|]. split; [|discriminate].
        split; [discriminate|]. intros (_ & _ & [H|H] & _); congruence.
    + apply eqb_INADDR_ANY in Nm. cbn [andb].
      destruct (bind_ret (env (os st)) =? 0) eqn:B; cbn [fst snd].
      * apply Z.eqb_eq in B. split; [now left|]. split; [tauto|].
        intros _. erewrite since_app by reflexivity.
        repeat split; auto.
      * apply Z.eqb_neq in B. split; [now right|].
        split; [|discriminate].
        split; [discriminate | intros (_ & _ & _ & H); contradiction].
Qed.

(** X2.  When [bind] fails, [create_and_bind] closes the socket it had
    opened before it returns -1: the set of open descriptors is the one it
    started from, and the close is the last call it makes. *)
Theorem create_and_bind_closes_on_bind_failure host port st :
  socket_fails (env (os st)) = false ->
  lowest_free (open_fds (os st)) <> 0 ->
  host = "INADDR_ANY"%string \/ resolves (env (os st)) = true ->
  bind_ret (env (os st)) <> 0 ->
  eval (create_and_bind host port) st = -1
  /\ open_fds (os (exec (create_and_bind host port) st)) = open_fds (os st)
  /\ closes (emitted (create_and_bind host port) st)
     = [lowest_free (open_fds (os st))]
  /\ bound (emitted (create_and_bind host port) st)
     = [lowest_free (open_fds (os st))]
  /\ exists t, emitted (create_and_bind host port) st
               = t ++ [Close (lowest_free (open_fds (os st)))].
Proof.
  intros SF Z0 H B. pose proof (lowest_free_fresh (open_fds (os st))) as FR.
  apply Z.eqb_neq in Z0. apply Z.eqb_neq in B.
  unfold emitted, eval, exec.
  rewrite (create_and_bind_eq host port st SF). cbv zeta. rewrite Z0, B.
  assert (C : negb (String.eqb host "INADDR_ANY")
              && negb (resolves (env (os st))) = false).
  { destruct H as [H|H].
    - apply eqb_INADDR_ANY in H. now rewrite H.
    - rewrite H. apply andb_false_r. }
  rewrite C. cbn [fst snd]. unfold exec. rewrite sys_close_spec.
  unfold since.
  remember (lowest_free (open_fds (os st))) as fd eqn:Efd.
  destruct st as [s [o n i b t v]].
  cbn [snd os self open_fds set_open set_nonblocking set_interest log log_all
       trace] in *.
  split; [reflexivity|]. split.
  { cbn [drop filter]. rewrite Z.eqb_refl. cbn [negb].
    now apply drop_fresh. }
  rewrite <- app_assoc, skipn_app, skipn_all, Nat.sub_diag.
  cbn [skipn app].
  destruct (negb (String.eqb host "INADDR_ANY")); cbn; repeat split.
  - now exists [Socket fd; Setsockopt fd (setsockopt_ret v);
                Gethostbyname host (resolves v);
                Bind fd port (bind_ret v)].
  - now exists [Socket fd; Setsockopt fd (setsockopt_ret v);
                Bind fd port (bind_ret v)].
Qed.

(** X3.  When the host name cannot be resolved, [create_and_bind] returns
    -1 at once: [bind] is never called and the socket it had opened is not
    closed, so one more descriptor is open than before. *)
Theorem create_and_bind_leaves_socket_on_resolve_failure host port st :
  socket_fails (env (os st)) = false ->
  lowest_free (open_fds (os st)) <> 0 ->
  host <> "INADDR_ANY"%string ->
  resolves (env (os st)) = false ->
  eval (create_and_bind host port) st = -1
  /\ emitted (create_and_bind host port) st
     = [Socket (lowest_free (open_fds (os st)));
        Setsockopt (lowest_free (open_fds (os st)))
                   (setsockopt_ret (env (os st)));
        Gethostbyname host false]
  /\ open_fds (os (exec (create_and_bind host port) st))
     = lowest_free (open_fds (os st)) :: open_fds (os st)
  /\ epoll_worker (self (exec (create_and_bind host port) st))
     = epoll_worker (self st).
Proof.
  intros SF Z0 HN R. apply Z.eqb_neq in Z0.
  assert (Nm : negb (String.eqb host "INADDR_ANY") = true).
  { destruct (negb (String.eqb host "INADDR_ANY")) eqn:E; [reflexivity|].
    apply eqb_INADDR_ANY in E. contradiction. }
  unfold emitted, eval, exec.
  rewrite (create_and_bind_eq host port st SF). cbv zeta.
  rewrite Z0, Nm, R. cbn [andb negb fst snd].
  split; [reflexivity|]. split; [now apply since_app|].
  split; reflexivity.
Qed.

(** X4.  The result of [socket] is compared with 0: when descriptor 0 is
    free, the socket is created as descriptor 0, taken for a failure, and
    [create_and_bind] returns -1 without any further call, leaving that
    socket open. *)
Theorem create_and_bind_rejects_descriptor_zero host port st :
  socket_fails (env (os st)) = false ->
  ~ In 0 (open_fds (os st)) ->
  eval (create_and_bind host port) st = -1
  /\ emitted (create_and_bind host port) st = [Socket 0]
  /\ open_fds (os (exec (create_and_bind host port) st))
     = 0 :: open_fds (os st)
  /\ socketfd (self (exec (create_and_bind host port) st)) = 0.
Proof.
  intros SF N0. apply lowest_free_zero in N0.
  unfold emitted, eval, exec.
  rewrite (create_and_bind_eq host port st SF). cbv zeta.
  rewrite N0. cbn [Z.eqb fst snd].
  split; [reflexivity|]. split; [now apply since_app|].
  split; reflexivity.
Qed.

(** X5.  A failed [socket] (result -1) is not noticed where it happens:
    [setsockopt] is still called on descriptor -1, and, unless the host
    name fails to resolve first, so are [bind] and [close]; the function
    returns -1 only because [bind] fails on the bad descriptor. *)
Theorem create_and_bind_goes_on_after_socket_failure host port st :
  socket_fails (env (os st)) = true ->
  ~ In (-1) (open_fds (os st)) ->
  eval (create_and_bind host port) st = -1
  /\ socketfd (self (exec (create_and_bind host port) st)) = -1
  /\ (exists t, emitted (create_and_bind host port) st
                = Socket (-1)
                  :: Setsockopt (-1) (setsockopt_ret (env (os st))) :: t)
  /\ (host = "INADDR_ANY"%string \/ resolves (env (os st)) = true ->
      bound (emitted (create_and_bind host port) st) = [-1]
      /\ closes (emitted (create_and_bind host port) st) = [-1])
  /\ open_fds (os (exec (create_and_bind host port) st)) = open_fds (os st).
Proof.
  intros SF NO. unfold emitted, eval, exec.
  rewrite (create_and_bind_socket_failed host port st SF NO). cbv zeta.
  destruct (negb (String.eqb host "INADDR_ANY")) eqn:Nm;
    [destruct (resolves (env (os st))) eqn:R|]; cbn [andb negb fst snd].
  all: unfold exec, since; rewrite ?sys_close_spec.
  all: destruct st as [s [o n i b t v]].
  all: cbn [snd os self open_fds set_open set_nonblocking set_interest log
            log_all socketfd set_socketfd trace env] in *.
  all: rewrite ?(drop_fresh _ _ NO).
  all: rewrite <- ?app_assoc, skipn_app, skipn_all, Nat.sub_diag.
  all: cbn [skipn app].
  all: split; [reflexivity|]; split; [reflexivity|];
    split; [eexists; reflexivity|]; split; [|reflexivity].
  - intros _. split; reflexivity.
  - intros [H|H]; [|discriminate].
    apply eqb_INADDR_ANY in H. congruence.
  - intros _. split; reflexivity.
Qed.

(** ** The accept path, once more *)

(** X6.  [make_socket_nonblocking] returns true exactly when both [fcntl]
    calls succeed.  It then has written back the flags it read with
    O_NONBLOCK added, the descriptor is non-blocking and no other
    descriptor changed mode; when it returns false no mode changed.  The
    object and the set of open descriptors are never touched. *)
Theorem make_socket_nonblocking_result fd st :
  (eval (make_socket_nonblocking fd) st = true
   <-> In fd (open_fds (os st))
       /\ ~ In fd (fcntl_getfl_err (env (os st)))
       /\ ~ In fd (fcntl_setfl_err (env (os st))))
  /\ (eval (make_socket_nonblocking fd) st = true ->
      (exists flags,
          emitted (make_socket_nonblocking fd) st
          = [FcntlGetfl fd flags; FcntlSetfl fd (Z.lor flags O_NONBLOCK) 0]
          /\ flags <> -1)
      /\ In fd (nonblocking (os (exec (make_socket_nonblocking fd) st)))
      /\ forall c, c <> fd ->
           (In c (nonblocking (os (exec (make_socket_nonblocking fd) st)))
            <-> In c (nonblocking (os st))))
  /\ (eval (make_socket_nonblocking fd) st = false ->
      nonblocking (os (exec (make_socket_nonblocking fd) st))
      = nonblocking (os st))
  /\ open_fds (os (exec (make_socket_nonblocking fd) st)) = open_fds (os st)
  /\ self (exec (make_socket_nonblocking fd) st) = self st.
Proof.
  unfold emitted, eval, exec.
  destruct (mem fd (open_fds (os st))) eqn:O.
  - rewrite (make_socket_nonblocking_eq fd st O).
    rewrite <- !mem_false_iff. apply mem_true_iff in O.
    destruct (getfl_value_sets_nonblock fd (os st)) as [NE _].
    destruct (mem fd (fcntl_getfl_err (env (os st)))) eqn:G;
      [|destruct (mem fd (fcntl_setfl_err (env (os st)))) eqn:S];
      cbn [fst snd os self log_all open_fds nonblocking set_nonblocking].
    1,2: split; [split; [discriminate | intros (_ & A & B); congruence]|];
      split; [discriminate|]; split; [reflexivity|]; split; reflexivity.
    split; [tauto|]. split; [|split; [discriminate|split; reflexivity]].
    intros _. split; [|split; [now left|]].
    + eexists. split; [now apply since_app | exact NE].
    + intros c N. cbn [In]. rewrite in_drop. intuition congruence.
  - assert (E : make_socket_nonblocking fd st
                = (false,
                   mkState (self st) (log (FcntlGetfl fd (-1)) (os st)))).
    { unfold make_socket_nonblocking, bind, sys_fcntl_getfl. now rewrite O. }
    rewrite E. cbn [fst snd os self log open_fds nonblocking].
    apply mem_false_iff in O.
    split; [split; [discriminate | tauto]|].
    split; [discriminate|]. split; [reflexivity|]. split; reflexivity.
Qed.

(** X7.  [accept_connection] returns -1 or a descriptor that was not open
    before the call and is now open, non-blocking and armed with the four
    flag mask; the member [event] then describes that descriptor.  When it
    returns -1 nothing was armed.  It never closes anything and never
    touches the registry. *)
Theorem accept_connection_result sfd epollfd st :
  (eval (accept_connection sfd epollfd) st = -1
   \/ 0 <= eval (accept_connection sfd epollfd) st
      /\ ~ In (eval (accept_connection sfd epollfd) st) (open_fds (os st))
      /\ In (eval (accept_connection sfd epollfd) st)
            (open_fds (os (exec (accept_connection sfd epollfd) st)))
      /\ In (eval (accept_connection sfd epollfd) st)
            (nonblocking (os (exec (accept_connection sfd epollfd) st)))
      /\ In (eval (accept_connection sfd epollfd) st, interest_mask)
            (interest (os (exec (accept_connection sfd epollfd) st)))
      /\ event (self (exec (accept_connection sfd epollfd) st))
         = mkEvent interest_mask (eval (accept_connection sfd epollfd) st))
  /\ (eval (accept_connection sfd epollfd) st = -1 ->
      interest (os (exec (accept_connection sfd epollfd) st))
      = interest (os st))
  /\ closes (emitted (accept_connection sfd epollfd) st) = []
  /\ client_fd_list (self (exec (accept_connection sfd epollfd) st))
     = client_fd_list (self st)
  /\ (forall c, In c (open_fds (os st)) ->
        In c (open_fds (os (exec (accept_connection sfd epollfd) st)))).
Proof.
  pose proof (lowest_free_nonneg (open_fds (os st))) as NN.
  pose proof (lowest_free_fresh (open_fds (os st))) as FR.
  unfold emitted, eval, exec. rewrite accept_connection_eq.
  destruct (mem sfd (open_fds (os st))); cbn [negb];
    [destruct (backlog (os st)) as [|[|] q];
     [|cbv zeta;
       destruct (mem (lowest_free (open_fds (os st)))
                     (fcntl_getfl_err (env (os st))));
       [|destruct (mem (lowest_free (open_fds (os st)))
                       (fcntl_setfl_err (env (os st))));
         [|destruct (mem (lowest_free (open_fds (os st)))
                         (epoll_ctl_err (env (os st))))]]|]|].
  all: cbn [fst snd].
  all: erewrite since_app by reflexivity.
  all: cbn [self os log_all set_open set_backlog set_nonblocking set_interest
            set_event client_fd_list open_fds nonblocking interest event].
  all: split; [|split; [|split; [reflexivity|split; [reflexivity|]]]].
  all: try (intros c I; first [exact I | now right]).
  all: try (intros _; reflexivity).
  all: try (now left).
  - right. repeat split; auto; try (now left).
    apply in_or_app. right. now left.
  - intros E. lia.
Qed.

(** X8.  The result of the accept helper is pushed only when it is greater
    than 0.  When descriptor 0 is free, the next connection is accepted as
    descriptor 0: it is made non-blocking and armed, but it does not enter
    the registry, so nothing is ever forwarded to it. *)
Theorem accepted_descriptor_zero_is_not_registered epollfd e st q :
  is_terminal (r_event e) = false ->
  socketfd (self st) = data_fd (r_event e) ->
  In (socketfd (self st)) (open_fds (os st)) ->
  backlog (os st) = Established :: q ->
  ~ In 0 (open_fds (os st)) ->
  ~ In 0 (fcntl_getfl_err (env (os st))) ->
  ~ In 0 (fcntl_setfl_err (env (os st))) ->
  ~ In 0 (epoll_ctl_err (env (os st))) ->
  accepted (emitted (handle_event epollfd e) st) = [0]
  /\ In 0 (open_fds (os (exec (handle_event epollfd e) st)))
  /\ In 0 (nonblocking (os (exec (handle_event epollfd e) st)))
  /\ In (0, interest_mask) (interest (os (exec (handle_event epollfd e) st)))
  /\ client_fd_list (self (exec (handle_event epollfd e) st))
     = client_fd_list (self st).
Proof.
  intros T L O B N0 G S C.
  apply lowest_free_zero in N0.
  apply mem_true_iff in O.
  apply mem_false_iff in G, S, C.
  unfold emitted, exec. rewrite (handle_event_listener _ _ _ T L).
  rewrite accept_connection_eq, O, B. cbv zeta. rewrite N0, G, S, C.
  cbn [negb Z.gtb Z.compare fst snd].
  erewrite since_app by reflexivity.
  cbn [self os log_all set_open set_backlog set_nonblocking set_interest
       set_event client_fd_list open_fds nonblocking interest].
  split; [reflexivity|]. split; [now left|]. split; [now left|].
  split; [|reflexivity]. apply in_or_app. right. now left.
Qed.

(** X9.  A read that returns 0 (end of file) or a negative value (error)
    on a ready client makes the dispatcher erase the first registry entry
    for that descriptor and close it, and nothing else: nothing is written
    to anybody, and the descriptor is afterwards neither open nor armed. *)
Theorem read_eof_or_error_drops_client epollfd e st :
  is_terminal (r_event e) = false ->
  socketfd (self st) <> data_fd (r_event e) ->
  rd_size (r_read e) <= 0 ->
  emitted (handle_event epollfd e) st
    = [Read (data_fd (r_event e)) (rd_size (r_read e));
       Close (data_fd (r_event e))]
  /\ client_fd_list (self (exec (handle_event epollfd e) st))
     = erase_first (data_fd (r_event e)) (client_fd_list (self st))
  /\ ~ In (data_fd (r_event e))
         (open_fds (os (exec (handle_event epollfd e) st)))
  /\ (forall mask, ~ In (data_fd (r_event e), mask)
                       (interest (os (exec (handle_event epollfd e) st))))
  /\ (forall c, c <> data_fd (r_event e) ->
        (In c (open_fds (os (exec (handle_event epollfd e) st)))
         <-> In c (open_fds (os st)))).
Proof.
  intros T L S. unfold emitted, exec.
  rewrite (handle_event_drop _ _ _ T L (or_introl S)).
  unfold drop_client, bind, upd_self. rewrite sys_close_spec.
  cbn [snd self os set_client_fd_list client_fd_list log set_interest
       set_nonblocking set_open open_fds interest].
  split; [apply since_app; cbn; now rewrite <- app_assoc|].
  split; [reflexivity|]. split; [rewrite in_drop; tauto|]. split.
  - intros mask. rewrite filter_In. cbn [fst]. rewrite Z.eqb_refl.
    intros [_ H]. discriminate H.
  - intros c N. rewrite in_drop. tauto.
Qed.

(** ** The mask test *)

Lemma has_flag_testbit m k :
  0 <= k -> has_flag m (2 ^ k) = Z.testbit m k.
Proof.
  intros K. unfold has_flag.
  destruct (Z.testbit m k) eqn:B.
  - apply negb_true_iff, Z.eqb_neq. intros E.
    assert (F : Z.testbit (Z.land m (2 ^ k)) k = false)
      by (rewrite E; apply Z.bits_0).
    rewrite Z.land_spec, B, Z.pow2_bits_true in F by assumption.
    discriminate F.
  - apply negb_false_iff, Z.eqb_eq. apply Z.bits_inj'. intros n N.
    rewrite Z.land_spec, Z.bits_0.
    destruct (Z.eq_dec k n) as [<-|D].
    + now rewrite B.
    + rewrite (Z.pow2_bits_false k n) by assumption. apply andb_false_r.
Qed.

(** X10.  An entry is handled as readable (accepted on, or read from)
    exactly when bit 0 (EPOLLIN) of its mask is set and bits 3 (EPOLLERR)
    and 4 (EPOLLHUP) are clear.  The peer hangup bit EPOLLRDHUP, although
    armed, plays no part: setting it in a mask never changes how the entry
    is handled, so a half closed peer reported as EPOLLIN with EPOLLRDHUP
    is read from, not closed at once. *)
Theorem terminal_test_by_bits mask fd :
  (is_terminal (mkEvent mask fd) = false
   <-> Z.testbit mask 0 = true
       /\ Z.testbit mask 3 = false
       /\ Z.testbit mask 4 = false)
  /\ is_terminal (mkEvent (Z.lor mask EPOLLRDHUP) fd)
     = is_terminal (mkEvent mask fd)
  /\ is_terminal (mkEvent (Z.lor EPOLLIN EPOLLRDHUP) fd) = false
  /\ is_terminal (mkEvent EPOLLRDHUP fd) = true.
Proof.
  assert (F : forall m, is_terminal (mkEvent m fd)
                        = Z.testbit m 3 || Z.testbit m 4
                          || negb (Z.testbit m 0)).
  { intros m. unfold is_terminal. cbn [events].
    change EPOLLERR with (2 ^ 3). change EPOLLHUP with (2 ^ 4).
    change EPOLLIN with (2 ^ 0).
    now rewrite !has_flag_testbit by lia. }
  split; [|split; [|split; reflexivity]].
  - rewrite F.
    destruct (Z.testbit mask 0), (Z.testbit mask 3), (Z.testbit mask 4);
      cbn; intuition congruence.
  - rewrite !F, !Z.lor_spec.
    change EPOLLRDHUP with (2 ^ 13).
    rewrite !(Z.pow2_bits_false 13) by lia.
    now rewrite !orb_false_r.
Qed.

(** ** What one entry, and a whole run, may call *)

Lemma reads_map_write p l : reads (map (fun x => Write x p) l) = [].
Proof. induction l as [|x l IH]; simpl; [reflexivity | exact IH]. Qed.

Lemma accept_calls_map_write p l :
  accept_calls (map (fun x => Write x p) l) = 0%nat.
Proof.
  unfold accept_calls.
  induction l as [|x l IH]; simpl; [reflexivity | exact IH].
Qed.

Lemma calls_read_then_writes fd size p l :
  closes (Read fd size :: map (fun x => Write x p) l) = []
  /\ reads (Read fd size :: map (fun x => Write x p) l) = [fd]
  /\ accept_calls (Read fd size :: map (fun x => Write x p) l) = 0%nat.
Proof.
  split; [exact (closes_map_write p l)|]. split.
  - cbn [reads flat_map app]. f_equal. exact (reads_map_write p l).
  - exact (accept_calls_map_write p l).
Qed.

(** The calls of one entry, branch by branch. *)
Lemma handle_event_calls epollfd e st :
  exists es,
    trace (os (exec (handle_event epollfd e) st)) = trace (os st) ++ es
    /\ (closes es = [] \/ closes es = [data_fd (r_event e)])
    /\ (reads es = [] \/ reads es = [data_fd (r_event e)])
    /\ (accept_calls es <= 1)%nat
    /\ (accept_calls es = 1%nat -> reads es = [] /\ closes es = [])
    /\ (is_terminal (r_event e) = true ->
        es = [Close (data_fd (r_event e))])
    /\ (reads es = [data_fd (r_event e)] ->
        is_terminal (r_event e) = false
        /\ socketfd (self st) <> data_fd (r_event e)).
Proof.
  destruct (is_terminal (r_event e)) eqn:T.
  { unfold exec. rewrite handle_event_terminal by assumption.
    exists [Close (data_fd (r_event e))]. cbn.
    repeat split; auto; try discriminate. }
  destruct (Z.eq_dec (socketfd (self st)) (data_fd (r_event e))) as [L|L].
  { unfold exec. rewrite (handle_event_listener _ _ _ T L).
    accept_cases st.
    all: try destruct (lowest_free (open_fds (os st)) >? 0).
    all: cbn [snd fst].
    all: eexists; (split; [reflexivity|]).
    all: cbn; repeat split; auto; try discriminate. }
  destruct (Z_lt_le_dec 0 (rd_size (r_read e))) as [S|S].
  - destruct (is_quit (r_read e)) eqn:Q.
    + unfold exec. rewrite (handle_event_drop _ _ _ T L (or_intror Q)).
      exists [Read (data_fd (r_event e)) (rd_size (r_read e));
              Close (data_fd (r_event e))].
      split; [cbn; now rewrite <- app_assoc|].
      cbn. repeat split; auto; try discriminate.
    + unfold exec. rewrite (handle_event_payload _ _ _ T L S Q).
      eexists. split; [reflexivity|].
      destruct (calls_read_then_writes (data_fd (r_event e))
                  (rd_size (r_read e)) (payload (r_read e))
                  (drop (data_fd (r_event e)) (client_fd_list (self st))))
        as (C & R & A).
      rewrite C, R, A. repeat split; auto; try discriminate.
  - unfold exec. rewrite (handle_event_drop _ _ _ T L (or_introl S)).
    exists [Read (data_fd (r_event e)) (rd_size (r_read e));
            Close (data_fd (r_event e))].
    split; [cbn; now rewrite <- app_assoc|].
    cbn. repeat split; auto; try discriminate.
Qed.

(** X11.  Handling one readiness entry makes at most one [accept], at most
    one [read] and at most one [close]; the read and the close, if any, are
    on the descriptor of the entry; an entry on which [accept] is called is
    neither read nor closed, and an entry that is read is a client entry
    whose mask passed the test. *)
Theorem entry_calls_bounded epollfd e st :
  (closes (emitted (handle_event epollfd e) st) = []
   \/ closes (emitted (handle_event epollfd e) st) = [data_fd (r_event e)])
  /\ (reads (emitted (handle_event epollfd e) st) = []
      \/ reads (emitted (handle_event epollfd e) st) = [data_fd (r_event e)])
  /\ (accept_calls (emitted (handle_event epollfd e) st) <= 1)%nat
  /\ (accept_calls (emitted (handle_event epollfd e) st) = 1%nat ->
      reads (emitted (handle_event epollfd e) st) = []
      /\ closes (emitted (handle_event epollfd e) st) = [])
  /\ (reads (emitted (handle_event epollfd e) st) = [data_fd (r_event e)] ->
      is_terminal (r_event e) = false
      /\ socketfd (self st) <> data_fd (r_event e)).
Proof.
  destruct (handle_event_calls epollfd e st)
    as (es & E & C & R & A & AR & _ & RT).
  unfold emitted. rewrite (since_app _ _ _ E). tauto.
Qed.

Lemma closes_app t1 t2 : closes (t1 ++ t2) = closes t1 ++ closes t2.
Proof. apply flat_map_app. Qed.

Lemma reads_app t1 t2 : reads (t1 ++ t2) = reads t1 ++ reads t2.
Proof. apply flat_map_app. Qed.

Lemma for_each_calls epollfd rs st :
  exists es,
    trace (os (exec (for_each rs (handle_event epollfd)) st))
    = trace (os st) ++ es
    /\ incl (closes es ++ reads es) (map (fun r => data_fd (r_event r)) rs).
Proof.
  revert st. induction rs as [|r rs IH]; intros st.
  - exists []. cbn. rewrite app_nil_r. split; [reflexivity | apply incl_nil_l].
  - rewrite for_each_cons.
    destruct (handle_event_calls epollfd r st) as (e1 & E1 & C & R & _).
    destruct (IH (exec (handle_event epollfd r) st)) as (e2 & E2 & I2).
    exists (e1 ++ e2). split; [now rewrite E2, E1, app_assoc|].
    rewrite closes_app, reads_app. intros x Hx. cbn [map In].
    rewrite !in_app_iff in Hx.
    assert (I2' : In x (closes e2) \/ In x (reads e2) ->
                  In x (map (fun r => data_fd (r_event r)) rs)).
    { intros H. apply I2. now apply in_app_iff. }
    destruct Hx as [[H|H]|[H|H]]; auto.
    + left. destruct C as [C|C]; rewrite C in H; [destruct H|].
      destruct H as [H|[]]. exact H.
    + left. destruct R as [R|R]; rewrite R in H; [destruct H|].
      destruct H as [H|[]]. exact H.
Qed.

Lemma event_worker_loop_calls epollfd script st :
  exists es,
    trace (os (exec (event_worker_loop epollfd script) st))
    = trace (os st) ++ es
    /\ incl (closes es ++ reads es) (reported script).
Proof.
  revert st. induction script as [|b script IH]; intros st;
    unfold exec; cbn [event_worker_loop];
    destruct (isRunning (self st)); cbn [negb snd].
  1,2,4: exists []; cbn; rewrite app_nil_r;
    (split; [reflexivity | apply incl_nil_l]).
  rewrite event_worker_iteration_eq.
  set (st1 := snd (sys_epoll_wait epollfd tcp_epoll_max_events b st)).
  destruct (for_each_calls epollfd
              (firstn (Z.to_nat tcp_epoll_max_events) (b_ready b)) st1)
    as (e1 & E1 & I1).
  destruct (IH (exec (for_each (firstn (Z.to_nat tcp_epoll_max_events)
                                       (b_ready b))
                               (handle_event epollfd)) st1))
    as (e2 & E2 & I2).
  exists (EpollWait epollfd
            (Z.of_nat (List.length (firstn (Z.to_nat tcp_epoll_max_events)
                                           (b_ready b))))
          :: e1 ++ e2).
  split.
  - unfold exec in *. rewrite E2, E1. subst st1. cbn.
    now rewrite <- !app_assoc.
  - cbn [closes reads flat_map app reported].
    change (flat_map _ (e1 ++ e2)) with (closes (e1 ++ e2)) at 1.
    change (flat_map _ (e1 ++ e2)) with (reads (e1 ++ e2)).
    rewrite closes_app, reads_app. intros x Hx.
    rewrite !in_app_iff in Hx. apply in_app_iff.
    assert (J : In x (closes e1) \/ In x (reads e1) ->
                In x (map (fun r => data_fd (r_event r)) (b_ready b))).
    { intros H. assert (H' : In x (closes e1 ++ reads e1))
        by now apply in_app_iff.
      apply I1 in H'. apply in_map_iff in H'.
      destruct H' as (r & <- & Hr).
      apply (in_map (fun r => data_fd (r_event r))).
      rewrite <- (firstn_skipn (Z.to_nat tcp_epoll_max_events) (b_ready b)).
      apply in_or_app. now left. }
    assert (K : In x (closes e2) \/ In x (reads e2) ->
                In x (reported script)).
    { intros H. apply I2. now apply in_app_iff. }
    tauto.
Qed.

(** X12.  Over any run of the loop, every descriptor the worker reads
    from or closes was reported in an entry of some batch: a client that
    is never reported is never closed by the loop, and the listener is
    closed by the loop only if an entry for it was reported. *)
Theorem loop_touches_only_reported epollfd script st fd :
  In fd (closes (emitted (event_worker_loop epollfd script) st))
  \/ In fd (reads (emitted (event_worker_loop epollfd script) st)) ->
  In fd (reported script).
Proof.
  destruct (event_worker_loop_calls epollfd script st) as (es & E & I).
  unfold emitted. rewrite (since_app _ _ _ E).
  intros H. apply I. now apply in_app_iff.
Qed.

(** ** What the registry holds *)

(** How one entry changes the registry, with what is known of a pushed
    descriptor. *)
Lemma handle_event_push epollfd e st :
  client_fd_list (self (exec (handle_event epollfd e) st))
  = client_fd_list (self st)
  \/ (client_fd_list (self (exec (handle_event epollfd e) st))
      = client_fd_list (self st) ++ [lowest_free (open_fds (os st))]
      /\ 0 < lowest_free (open_fds (os st))
      /\ In (socketfd (self st)) (open_fds (os st)))
  \/ client_fd_list (self (exec (handle_event epollfd e) st))
     = erase_first (data_fd (r_event e)) (client_fd_list (self st)).
Proof.
  destruct (handle_event_registry_step epollfd e st) as [H|[H|H]]; auto.
  destruct (is_terminal (r_event e)) eqn:T.
  { left. unfold exec. now rewrite handle_event_terminal. }
  destruct (Z.eq_dec (socketfd (self st)) (data_fd (r_event e))) as [L|L].
  - unfold exec. rewrite (handle_event_listener _ _ _ T L).
    accept_cases st.
    all: try destruct (lowest_free (open_fds (os st)) >? 0) eqn:P.
    all: cbn [snd fst Z.gtb Z.compare].
    all: try (now left).
    right. left. apply Z.gtb_lt in P.
    split; [reflexivity|]. split; [exact P|]. now apply mem_true_iff.
  - destruct (Z_lt_le_dec 0 (rd_size (r_read e))) as [S|S].
    + destruct (is_quit (r_read e)) eqn:Q.
      * right. right. unfold exec.
        now rewrite (handle_event_drop _ _ _ T L (or_intror Q)).
      * left. unfold exec. now rewrite (handle_event_payload _ _ _ T L S Q).
    + right. right. unfold exec.
      now rewrite (handle_event_drop _ _ _ T L (or_introl S)).
Qed.

Lemma erase_first_incl fd l : incl (erase_first fd l) l.
Proof. intros x. apply subseq_In, erase_first_subseq. Qed.

Lemma handle_event_positive epollfd e st :
  Forall (fun c => 0 < c) (client_fd_list (self st)) ->
  Forall (fun c => 0 < c)
         (client_fd_list (self (exec (handle_event epollfd e) st))).
Proof.
  intros F. destruct (handle_event_push epollfd e st) as [H|[(H & P & _)|H]];
    rewrite H.
  - exact F.
  - apply Forall_app. split; [exact F | now constructor].
  - rewrite Forall_forall in *. intros x I. apply F.
    now apply (erase_first_incl (data_fd (r_event e))).
Qed.

Lemma handle_event_excludes_listener epollfd e st :
  ~ In (socketfd (self st)) (client_fd_list (self st)) ->
  ~ In (socketfd (self (exec (handle_event epollfd e) st)))
       (client_fd_list (self (exec (handle_event epollfd e) st))).
Proof.
  intros N.
  destruct (handle_event_grows epollfd e st) as (_ & _ & _ & _ & F).
  rewrite F.
  destruct (handle_event_push epollfd e st) as [H|[(H & _ & O)|H]];
    rewrite H.
  - exact N.
  - rewrite in_app_iff. intros [I|[I|[]]]; [now apply N|].
    apply (lowest_free_fresh (open_fds (os st))). now rewrite I.
  - intros I. apply N.
    now apply (erase_first_incl (data_fd (r_event e))).
Qed.

(** An invariant of single entries is an invariant of the loop. *)
Lemma event_worker_loop_invariant (P : TCP_Server -> Prop) epollfd :
  (forall e st, P (self st) -> P (self (exec (handle_event epollfd e) st))) ->
  forall script st,
    P (self st) -> P (self (exec (event_worker_loop epollfd script) st)).
Proof.
  intros Step.
  assert (Each : forall rs st,
             P (self st) ->
             P (self (exec (for_each rs (handle_event epollfd)) st))).
  { induction rs as [|r rs IH]; intros st H; [exact H|].
    rewrite for_each_cons. apply IH, Step, H. }
  induction script as [|b script IH]; intros st H;
    unfold exec; cbn [event_worker_loop];
    destruct (isRunning (self st)); cbn [negb snd]; try exact H.
  apply IH. rewrite event_worker_iteration_eq. apply Each. exact H.
Qed.

(** X13.  Only descriptors greater than 0 enter the registry: if every
    entry of the registry is positive before a run of the loop, every
    entry is positive after it. *)
Theorem registry_entries_stay_positive epollfd script st :
  Forall (fun c => 0 < c) (client_fd_list (self st)) ->
  Forall (fun c => 0 < c)
         (client_fd_list (self (exec (event_worker_loop epollfd script) st))).
Proof.
  apply (event_worker_loop_invariant
           (fun s => Forall (fun c => 0 < c) (client_fd_list s))).
  intros e st0. apply handle_event_positive.
Qed.

(** X14.  The listener never enters the registry: a descriptor is pushed
    only when [accept] on the open listener returned it, and that is a
    descriptor which was not open, so not the listener.  If the listener
    is not in the registry before a run of the loop, it is not in it
    after. *)
Theorem listener_stays_out_of_registry epollfd script st :
  ~ In (socketfd (self st)) (client_fd_list (self st)) ->
  ~ In (socketfd (self (exec (event_worker_loop epollfd script) st)))
       (client_fd_list (self (exec (event_worker_loop epollfd script) st))).
Proof.
  apply (event_worker_loop_invariant
           (fun s => ~ In (socketfd s) (client_fd_list s))).
  intros e st0. apply handle_event_excludes_listener.
Qed.

Lemma erase_first_NoDup_out fd l : NoDup l -> ~ In fd (erase_first fd l).
Proof.
  induction 1 as [|x l N ND IH]; simpl; [tauto|].
  destruct (x =? fd) eqn:E.
  - apply Z.eqb_eq in E. now subst.
  - apply Z.eqb_neq in E. intros [I|I]; [congruence | now apply IH].
Qed.

Lemma erase_first_absent fd l : ~ In fd l -> erase_first fd l = l.
Proof.
  induction l as [|x l IH]; simpl; [reflexivity|]. intros N.
  destruct (x =? fd) eqn:E.
  - apply Z.eqb_eq in E. subst. exfalso. apply N. now left.
  - f_equal. apply IH. tauto.
Qed.

Lemma erase_first_count fd l c :
  count_occ Z.eq_dec l c
  = (count_occ Z.eq_dec (erase_first fd l) c
     + (if Z.eq_dec c fd then (if mem fd l then 1 else 0) else 0))%nat.
Proof.
  induction l as [|x l IH]; simpl.
  - destruct (Z.eq_dec c fd); reflexivity.
  - unfold mem in *. simpl.
    destruct (x =? fd) eqn:E.
    + apply Z.eqb_eq in E. subst x. rewrite Z.eqb_refl. simpl.
      destruct (Z.eq_dec fd c) as [->|N].
      * destruct (Z.eq_dec c c); [lia | congruence].
      * destruct (Z.eq_dec c fd); [congruence | lia].
    + rewrite Z.eqb_sym, E. simpl.
      destruct (Z.eq_dec x c) as [->|N]; rewrite IH; lia.
Qed.

(** X15.  Unregistering removes one entry and keeps the rest.  When a
    client quits or its read returns no data: if its descriptor is in the
    registry, the registry loses exactly one entry, an entry of that
    descriptor; if it is not, the registry is unchanged and the descriptor
    is closed all the same; the entries of every other descriptor are kept,
    in their order. *)
Theorem unregister_removes_one_entry epollfd e st :
  is_terminal (r_event e) = false ->
  socketfd (self st) <> data_fd (r_event e) ->
  rd_size (r_read e) <= 0 \/ is_quit (r_read e) = true ->
  (In (data_fd (r_event e)) (client_fd_list (self st)) ->
   S (List.length (client_fd_list (self (exec (handle_event epollfd e) st))))
   = List.length (client_fd_list (self st))
   /\ S (count_occ Z.eq_dec
           (client_fd_list (self (exec (handle_event epollfd e) st)))
           (data_fd (r_event e)))
      = count_occ Z.eq_dec (client_fd_list (self st)) (data_fd (r_event e)))
  /\ (~ In (data_fd (r_event e)) (client_fd_list (self st)) ->
      client_fd_list (self (exec (handle_event epollfd e) st))
      = client_fd_list (self st))
  /\ (forall c, c <> data_fd (r_event e) ->
        count_occ Z.eq_dec
          (client_fd_list (self (exec (handle_event epollfd e) st))) c
        = count_occ Z.eq_dec (client_fd_list (self st)) c)
  /\ subseq (client_fd_list (self (exec (handle_event epollfd e) st)))
            (client_fd_list (self st))
  /\ closes (emitted (handle_event epollfd e) st) = [data_fd (r_event e)].
Proof.
  intros T L D. unfold emitted, exec. rewrite (handle_event_drop _ _ _ T L D).
  unfold drop_client, bind, upd_self. rewrite sys_close_spec.
  cbn [snd self os set_client_fd_list client_fd_list].
  set (fd := data_fd (r_event e)). set (l := client_fd_list (self st)).
  split; [|split; [|split; [|split]]].
  - intros I. split.
    + clear -I. induction l as [|x l IH]; [destruct I|]. simpl.
      destruct (x =? fd) eqn:E; [reflexivity|]. simpl. f_equal.
      apply IH. destruct I as [->|I]; [|exact I].
      rewrite Z.eqb_refl in E. discriminate.
    + rewrite (erase_first_count fd l fd).
      destruct (Z.eq_dec fd fd); [|congruence].
      apply mem_true_iff in I. rewrite I. lia.
  - apply erase_first_absent.
  - intros c N. rewrite (erase_first_count fd l c).
    destruct (Z.eq_dec c fd); [congruence | lia].
  - apply erase_first_subseq.
  - erewrite since_app by (cbn; rewrite <- app_assoc; reflexivity).
    reflexivity.
Qed.

(** X16.  A client that quit, or whose read returned no data, gets nothing
    afterwards: when the registry lists each descriptor once, the next
    message of another client is not written to the descriptor that was
    dropped, and goes to the remaining entries in their order. *)
Theorem dropped_client_gets_no_more epollfd e1 e2 st :
  NoDup (client_fd_list (self st)) ->
  is_terminal (r_event e1) = false ->
  socketfd (self st) <> data_fd (r_event e1) ->
  rd_size (r_read e1) <= 0 \/ is_quit (r_read e1) = true ->
  is_terminal (r_event e2) = false ->
  socketfd (self st) <> data_fd (r_event e2) ->
  0 < rd_size (r_read e2) ->
  is_quit (r_read e2) = false ->
  writes_to (data_fd (r_event e1))
            (emitted (handle_event epollfd e2)
                     (exec (handle_event epollfd e1) st)) = []
  /\ recipients (emitted (handle_event epollfd e2)
                         (exec (handle_event epollfd e1) st))
     = drop (data_fd (r_event e2))
            (erase_first (data_fd (r_event e1)) (client_fd_list (self st))).
Proof.
  intros ND T1 L1 D1 T2 L2 S2 Q2.
  destruct (handle_event_grows epollfd e1 st) as (_ & _ & _ & _ & F).
  assert (R : client_fd_list (self (exec (handle_event epollfd e1) st))
              = erase_first (data_fd (r_event e1)) (client_fd_list (self st))).
  { unfold exec. now rewrite (handle_event_drop _ _ _ T1 L1 D1). }
  assert (L2' : socketfd (self (exec (handle_event epollfd e1) st))
                <> data_fd (r_event e2)) by now rewrite F.
  destruct (fanout_payload_shape epollfd e2 _ T2 L2' S2 Q2) as (E & _).
  rewrite E, R. split.
  - cbn [writes_to flat_map app].
    change (flat_map _ (map ?f ?l))
      with (writes_to (data_fd (r_event e1)) (map f l)).
    rewrite writes_to_map.
    rewrite (proj1 (count_occ_not_In Z.eq_dec _ _)); [reflexivity|].
    rewrite in_drop. intros [I _].
    exact (erase_first_NoDup_out (data_fd (r_event e1)) _ ND I).
  - cbn [recipients flat_map app]. apply recipients_map.
Qed.

(** X17.  A client closed by the mask test stays a recipient: after an
    entry with an error or a hangup on a registered descriptor, that
    descriptor is closed, and the next message of another client is still
    written to it. *)
Theorem closed_client_is_still_written_to epollfd e1 e2 st :
  is_terminal (r_event e1) = true ->
  In (data_fd (r_event e1)) (client_fd_list (self st)) ->
  is_terminal (r_event e2) = false ->
  socketfd (self st) <> data_fd (r_event e2) ->
  0 < rd_size (r_read e2) ->
  is_quit (r_read e2) = false ->
  data_fd (r_event e2) <> data_fd (r_event e1) ->
  ~ In (data_fd (r_event e1))
       (open_fds (os (exec (handle_event epollfd e1) st)))
  /\ In (Write (data_fd (r_event e1)) (payload (r_read e2)))
        (emitted (handle_event epollfd e2)
                 (exec (handle_event epollfd e1) st)).
Proof.
  intros T1 I T2 L2 S2 Q2 N.
  assert (E1 : exec (handle_event epollfd e1) st
               = snd (sys_close (data_fd (r_event e1)) st)).
  { unfold exec. now rewrite handle_event_terminal. }
  rewrite E1, sys_close_spec. cbn [snd].
  split; [cbn; rewrite in_drop; tauto|].
  destruct (fanout_payload_shape epollfd e2
              (mkState (self st)
                 (log (Close (data_fd (r_event e1)))
                    (set_interest
                       (filter (fun p => negb (fst p =? data_fd (r_event e1)))
                               (interest (os st)))
                       (set_nonblocking
                          (drop (data_fd (r_event e1)) (nonblocking (os st)))
                          (set_open (drop (data_fd (r_event e1))
                                          (open_fds (os st))) (os st))))))
              T2 L2 S2 Q2) as (E & _).
  rewrite E. right. cbn [self].
  apply (in_map (fun c => Write c (payload (r_read e2)))).
  apply in_drop. split; [exact I | congruence].
Qed.

(** ** The worker's startup *)

Lemma event_worker_startup_eq st :
  event_worker_startup st
  = let sfd := socketfd (self st) in
    let lr := if mem sfd (open_fds (os st)) then listen_ret (env (os st))
              else -1 in
    let s1 := set_event (mkEvent interest_mask sfd) (self st) in
    let ep := lowest_free (open_fds (os st)) in
    let k1 := set_open (ep :: open_fds (os st)) (os st) in
    if lr =? -1 then
      (None, mkState (self st) (log_all [Listen sfd lr] (os st)))
    else if epoll_create1_fails (env (os st)) then
      (None, mkState s1 (log_all [Listen sfd lr; EpollCreate1 (-1)] (os st)))
    else if mem sfd (ep :: open_fds (os st))
            && negb (mem sfd (epoll_ctl_err (env (os st)))) then
      (Some ep,
       mkState (set_worker_state true s1)
         (log_all [Listen sfd lr; EpollCreate1 ep;
                   EpollCtlAdd ep sfd interest_mask 0]
            (set_interest (interest (os st) ++ [(sfd, interest_mask)]) k1)))
    else
      (None,
       mkState s1
         (log_all [Listen sfd lr; EpollCreate1 ep;
                   EpollCtlAdd ep sfd interest_mask (-1)] k1)).
Proof.
  pose proof (lowest_free_nonneg (open_fds (os st))) as NN.
  destruct st as [s [o n i b t v]].
  cbn [os self env open_fds] in *. cbv zeta.
  unfold event_worker_startup, bind, ret, upd_self, get_self, sys_listen,
    sys_epoll_create1, open_new, sys_epoll_ctl_add, log_all, log, set_open,
    set_interest.
  cbn [os self env open_fds nonblocking interest backlog trace].
  destruct ((if mem (socketfd s) o then listen_ret v else -1) =? -1);
    [reflexivity|].
  cbn [os self env open_fds nonblocking interest backlog trace].
  destruct (epoll_create1_fails v);
    cbn [os self env open_fds nonblocking interest backlog trace Z.eqb];
    [now rewrite <- !app_assoc|].
  assert (E : (lowest_free o =? -1) = false) by (apply Z.eqb_neq; lia).
  rewrite E.
  cbn [os self env open_fds nonblocking interest backlog trace event
       set_event events].
  destruct (mem (socketfd s) (lowest_free o :: o)
            && negb (mem (socketfd s) (epoll_ctl_err v)));
    cbn [Z.eqb os self env open_fds nonblocking interest backlog trace];
    now rewrite <- !app_assoc.
Qed.

(** X18.  The worker publishes online exactly when [listen] on the open
    listener does not return -1, [epoll_create1] succeeds and the listener
    can be armed; it then holds a new epoll descriptor in which the
    listener is armed with the four flag mask.  When it returns early the
    online flag is as it was, and in no case is anything closed: the
    listener stays open, and so does an epoll descriptor that was created
    before arming failed.  The running flag is not touched. *)
Theorem startup_publishes_online_iff_ready st :
  (eval event_worker_startup st <> None
   <-> In (socketfd (self st)) (open_fds (os st))
       /\ listen_ret (env (os st)) <> -1
       /\ epoll_create1_fails (env (os st)) = false
       /\ ~ In (socketfd (self st)) (epoll_ctl_err (env (os st))))
  /\ (forall epollfd,
        eval event_worker_startup st = Some epollfd ->
        epollfd = lowest_free (open_fds (os st))
        /\ worker_state (self (exec event_worker_startup st)) = true
        /\ In (socketfd (self st), interest_mask)
              (interest (os (exec event_worker_startup st)))
        /\ In epollfd (open_fds (os (exec event_worker_startup st))))
  /\ (eval event_worker_startup st = None ->
      worker_state (self (exec event_worker_startup st))
      = worker_state (self st)
      /\ interest (os (exec event_worker_startup st)) = interest (os st))
  /\ closes (emitted event_worker_startup st) = []
  /\ (forall c, In c (open_fds (os st)) ->
                In c (open_fds (os (exec event_worker_startup st))))
  /\ (In (EpollCreate1 (lowest_free (open_fds (os st))))
         (emitted event_worker_startup st) ->
      In (lowest_free (open_fds (os st)))
         (open_fds (os (exec event_worker_startup st))))
  /\ isRunning (self (exec event_worker_startup st)) = isRunning (self st)
  /\ epoll_worker (self (exec event_worker_startup st))
     = epoll_worker (self st).
Proof.
  pose proof (lowest_free_nonneg (open_fds (os st))) as NN.
  unfold emitted, eval, exec. rewrite event_worker_startup_eq. cbv zeta.
  rewrite <- mem_true_iff, <- mem_false_iff.
  destruct (mem (socketfd (self st)) (open_fds (os st))) eqn:O.
  2:{ cbn [Z.eqb fst snd]. erewrite since_app by reflexivity.
      cbn [self os log_all open_fds interest].
      split; [split; [intros H; exfalso; now apply H
                     | intros (H & _); discriminate]|].
      repeat split; auto; try discriminate.
      intros [H|[]]. discriminate H. }
  destruct (listen_ret (env (os st)) =? -1) eqn:LR.
  { apply Z.eqb_eq in LR. cbn [fst snd]. erewrite since_app by reflexivity.
    cbn [self os log_all open_fds interest].
    split; [split; [intros H; exfalso; now apply H
                   | intros (_ & H & _); congruence]|].
    repeat split; auto; try discriminate.
    intros [H|[]]. discriminate H. }
  apply Z.eqb_neq in LR.
  destruct (epoll_create1_fails (env (os st))) eqn:EC.
  { cbn [fst snd]. erewrite since_app by reflexivity.
    cbn [self os log_all open_fds interest set_event worker_state isRunning
         epoll_worker].
    split; [split; [intros H; exfalso; now apply H
                   | intros (_ & _ & H & _); discriminate]|].
    repeat split; auto; try discriminate.
    intros [H|[H|[]]]; [discriminate H|]. injection H as H. lia. }
  assert (O' : mem (socketfd (self st))
                   (lowest_free (open_fds (os st)) :: open_fds (os st)) = true).
  { apply mem_true_iff. right. now apply mem_true_iff. }
  rewrite O'. cbn [andb].
  destruct (mem (socketfd (self st)) (epoll_ctl_err (env (os st)))) eqn:CE;
    cbn [negb fst snd]; erewrite since_app by reflexivity;
    cbn [self os log_all open_fds interest set_event set_worker_state
         set_open set_interest worker_state isRunning epoll_worker].
  - split; [split; [intros H; exfalso; now apply H
                   | intros (_ & _ & _ & H); discriminate]|].
    repeat split; auto; try discriminate; try (now right).
    intros _. now left.
  - split; [split; [auto | discriminate]|].
    split; [|repeat split; auto; try discriminate; try (now right);
             intros _; now left].
    intros ep E. injection E as <-.
    repeat split; auto; [|now left].
    apply in_or_app. right. now left.
Qed.

(** ** The lifetime of the server in [main] *)

Lemma create_and_bind_control host port st :
  epoll_worker (self (exec (create_and_bind host port) st))
  = epoll_worker (self st)
  /\ isRunning (self (exec (create_and_bind host port) st))
     = isRunning (self st).
Proof.
  unfold exec, create_and_bind, bind, ret, upd_self, sys_socket, open_new,
    sys_setsockopt, sys_gethostbyname, sys_bind, sys_close, upd_os.
  split_ifs; split; reflexivity.
Qed.

Lemma event_worker_startup_control st :
  epoll_worker (self (exec event_worker_startup st)) = epoll_worker (self st)
  /\ isRunning (self (exec event_worker_startup st)) = isRunning (self st).
Proof.
  unfold exec, event_worker_startup, bind, ret, upd_self, get_self,
    sys_listen, sys_epoll_create1, open_new, sys_epoll_ctl_add.
  split_ifs; split; reflexivity.
Qed.

Lemma handle_event_thread epollfd e st :
  epoll_worker (self (exec (handle_event epollfd e) st))
  = epoll_worker (self st).
Proof.
  destruct (is_terminal (r_event e)) eqn:T.
  { unfold exec. now rewrite handle_event_terminal. }
  destruct (Z.eq_dec (socketfd (self st)) (data_fd (r_event e))) as [L|L].
  { unfold exec. rewrite (handle_event_listener _ _ _ T L).
    accept_cases st.
    all: try destruct (lowest_free (open_fds (os st)) >? 0).
    all: reflexivity. }
  destruct (Z_lt_le_dec 0 (rd_size (r_read e))) as [S|S].
  - destruct (is_quit (r_read e)) eqn:Q.
    + unfold exec. now rewrite (handle_event_drop _ _ _ T L (or_intror Q)).
    + unfold exec. now rewrite (handle_event_payload _ _ _ T L S Q).
  - unfold exec. now rewrite (handle_event_drop _ _ _ T L (or_introl S)).
Qed.

Lemma constructor_outcome port st :
  (eval (create_and_bind "0.0.0.0" port) st = 0 ->
   epoll_worker (self (exec (TCP_Server_port port) st)) = Joinable
   /\ isRunning (self (exec (TCP_Server_port port) st)) = true)
  /\ (eval (create_and_bind "0.0.0.0" port) st <> 0 ->
      epoll_worker (self (exec (TCP_Server_port port) st))
      = epoll_worker (self st)
      /\ isRunning (self (exec (TCP_Server_port port) st))
         = isRunning (self st)).
Proof.
  destruct (create_and_bind_control "0.0.0.0" port st) as (W & R).
  unfold eval, exec in *. unfold TCP_Server_port, bind.
  destruct (create_and_bind "0.0.0.0" port st) as [r st1].
  cbn [fst snd] in *. split.
  - intros ->. cbn. split; reflexivity.
  - intros N. apply Z.eqb_neq in N. rewrite N. cbn. now split.
Qed.

Lemma destroy_outcome wr st :
  eval (TCP_Server_destroy wr) st = joinable (epoll_worker (self st))
  /\ (joinable (epoll_worker (self st)) = true ->
      epoll_worker (self (exec (TCP_Server_destroy wr) st)) = Joined)
  /\ (joinable (epoll_worker (self st)) = false ->
      epoll_worker (self (exec (TCP_Server_destroy wr) st))
      = epoll_worker (self st)).
Proof.
  unfold eval, exec, TCP_Server_destroy, stop_event_worker, thread_join,
    bind, upd_self, get_self, upd_os, ret.
  cbn [self os set_isRunning epoll_worker].
  destruct (joinable (epoll_worker (self st))) eqn:J.
  - destruct (wr _) as [[] st3]. cbn. repeat split; auto. discriminate.
  - cbn. repeat split; auto. discriminate.
Qed.

Lemma main_cases script st :
  epoll_worker (self st) = NotAThread ->
  (eval (create_and_bind "0.0.0.0" 9090) st = 0
   /\ eval (main script) st = Some 0
   /\ epoll_worker (self (exec (main script) st)) = Joined)
  \/ (eval (create_and_bind "0.0.0.0" 9090) st <> 0
      /\ eval (main script) st = None
      /\ epoll_worker (self (exec (main script) st)) = NotAThread
      /\ exists t, trace (os (exec (main script) st))
                   = t ++ [ThreadJoin false]).
Proof.
  intros NT.
  destruct (constructor_outcome 9090 st) as (OK & KO).
  unfold eval at 2 4, exec at 1 2 3.
  remember (main script st) as p eqn:Hp.
  unfold main in Hp. unfold bind at 1 in Hp. unfold exec in OK, KO.
  destruct (TCP_Server_port 9090 st) as [[] st1]. cbn [snd] in OK, KO.
  unfold bind at 1 in Hp. unfold get_self at 1 in Hp.
  destruct (Z.eq_dec (eval (create_and_bind "0.0.0.0" 9090) st) 0) as [E|E].
  - left. split; [exact E|].
    destruct (OK E) as (J & R). rewrite J in Hp. cbn [joinable] in Hp.
    unfold bind at 1 in Hp.
    destruct (event_worker_startup_control st1) as (W2 & R2).
    unfold exec in W2, R2.
    destruct (event_worker_startup st1) as [started st2]. cbn [snd] in W2, R2.
    unfold bind at 1 in Hp. unfold isAlive at 1, get_self at 1 in Hp.
    rewrite R2, R in Hp. cbn [negb] in Hp.
    unfold bind at 1 in Hp.
    assert (W4 : epoll_worker
                   (self (snd (match started with
                               | Some epollfd =>
                                   event_worker_loop epollfd script ;;; ret tt
                               | None => ret tt
                               end st2))) = Joinable).
    { destruct started as [ep|]; [|cbn; congruence].
      unfold bind.
      pose proof (event_worker_loop_invariant
                    (fun s => epoll_worker s = Joinable) ep) as Inv.
      unfold exec in Inv.
      specialize (Inv (fun e st0 H =>
                         eq_trans (handle_event_thread ep e st0) H)
                      script st2 (eq_trans W2 J)).
      destruct (event_worker_loop ep script st2) as [b st3]. exact Inv. }
    destruct (match started with
              | Some epollfd => event_worker_loop epollfd script ;;; ret tt
              | None => ret tt
              end st2) as [[] st3]. cbn [snd] in W4.
    unfold bind at 1 in Hp.
    destruct (destroy_outcome (worker_rest started) st3) as (D1 & D2 & _).
    unfold eval, exec in D1, D2. rewrite W4 in D1, D2.
    cbn [joinable] in D1, D2.
    destruct (TCP_Server_destroy (worker_rest started) st3) as [ok st4].
    cbn [fst snd] in *. subst ok. cbn [ret] in Hp. subst p.
    split; [reflexivity | now apply D2].
  - right. split; [exact E|].
    destruct (KO E) as (J & R). rewrite J, NT in Hp. cbn [joinable] in Hp.
    unfold bind at 1 in Hp. unfold ret at 1 in Hp.
    unfold bind at 1 in Hp. unfold isAlive at 1, get_self at 1 in Hp.
    destruct (destroy_outcome (worker_rest None) st1) as (D1 & _ & D3).
    unfold eval, exec in D1, D3. rewrite J, NT in D1, D3.
    cbn [joinable] in D1, D3. specialize (D3 eq_refl).
    assert (TR : exists t,
               trace (os (snd (TCP_Server_destroy (worker_rest None) st1)))
               = t ++ [ThreadJoin false]).
    { unfold TCP_Server_destroy, stop_event_worker, thread_join, bind,
        upd_self, get_self, upd_os, ret.
      cbn [self os set_isRunning epoll_worker]. rewrite J, NT.
      cbn. eexists. reflexivity. }
    destruct (isRunning (self st1)); cbn [negb] in Hp.
    + unfold bind at 1 in Hp. unfold ret at 1 in Hp.
      unfold bind at 1 in Hp.
      destruct (TCP_Server_destroy (worker_rest None) st1) as [ok st4].
      cbn [fst snd] in *. subst ok. cbn [ret] in Hp. subst p.
      cbn [fst snd]. repeat split; assumption.
    + unfold bind at 1 in Hp.
      destruct (TCP_Server_destroy (worker_rest None) st1) as [ok st4].
      cbn [fst snd] in *. subst ok. cbn [ret] in Hp. subst p.
      cbn [fst snd]. repeat split; assumption.
Qed.

(** X19.  [main] never returns -1.  It returns 0 exactly when
    [create_and_bind] succeeded, whatever happened to the worker
    afterwards; the thread has then been joined.  When [create_and_bind]
    failed no thread was started, and on both ways out of [main] the
    destructor's [join] on the thread that is not joinable throws: the
    path that prints the start failure and returns -1 does not deliver its
    exit code. *)
Theorem main_exit_code script st :
  epoll_worker (self st) = NotAThread ->
  (eval (main script) st = Some 0
   <-> eval (create_and_bind "0.0.0.0" 9090) st = 0)
  /\ (eval (main script) st = None
      <-> eval (create_and_bind "0.0.0.0" 9090) st <> 0)
  /\ eval (main script) st <> Some (-1)
  /\ (eval (main script) st = Some 0 ->
      epoll_worker (self (exec (main script) st)) = Joined)
  /\ (eval (main script) st = None ->
      epoll_worker (self (exec (main script) st)) = NotAThread
      /\ exists t, trace (os (exec (main script) st))
                   = t ++ [ThreadJoin false]).
Proof.
  intros NT.
  destruct (main_cases script st NT) as [(E & R & W)|(E & R & W & T)];
    rewrite R.
  - repeat split; auto; try discriminate; try congruence.
  - repeat split; auto; try discriminate; try congruence.
Qed.

(** ** Entries for other descriptors *)

Lemma erase_first_keeps c fd l : c <> fd -> In c l -> In c (erase_first fd l).
Proof.
  intros N. induction l as [|x l IH]; simpl; [tauto|].
  destruct (x =? fd) eqn:E.
  - apply Z.eqb_eq in E. subst x. intros [H|H]; [congruence | exact H].
  - intros [H|H]; [now left | right; now apply IH].
Qed.

Lemma kept_refl c st : kept c st st.
Proof. repeat split; auto. Qed.

Lemma kept_trans c st1 st2 st3 :
  kept c st1 st2 -> kept c st2 st3 -> kept c st1 st3.
Proof. intros (A & B & C) (A' & B' & C'). repeat split; auto. Qed.

Lemma sys_close_kept c fd st : c <> fd -> kept c st (snd (sys_close fd st)).
Proof.
  intros N. rewrite sys_close_spec. cbn. repeat split; auto.
  - intros I. apply in_drop. now split.
  - intros mask I. apply filter_In. split; [exact I|].
    cbn [fst]. apply negb_true_iff. now apply Z.eqb_neq.
Qed.

Lemma handle_event_kept epollfd e st c :
  c <> data_fd (r_event e) -> kept c st (exec (handle_event epollfd e) st).
Proof.
  intros N. destruct (is_terminal (r_event e)) eqn:T.
  { unfold exec. rewrite handle_event_terminal by assumption.
    now apply sys_close_kept. }
  destruct (Z.eq_dec (socketfd (self st)) (data_fd (r_event e))) as [L|L].
  { unfold exec. rewrite (handle_event_listener _ _ _ T L).
    accept_cases st.
    all: try destruct (lowest_free (open_fds (os st)) >? 0).
    all: cbn [snd fst].
    all: unfold kept;
      cbn [self os log_all set_open set_backlog set_nonblocking set_interest
           set_client_fd_list set_event client_fd_list open_fds interest].
    all: repeat split; auto; intros; try (now right);
      apply in_or_app; now left. }
  assert (D : kept c st (snd (drop_client (data_fd (r_event e))
                 (mkState (self st)
                    (log (Read (data_fd (r_event e)) (rd_size (r_read e)))
                         (os st)))))).
  { unfold drop_client, bind, upd_self. rewrite sys_close_spec.
    unfold kept. cbn. repeat split.
    - intros I. apply in_drop. now split.
    - now apply erase_first_keeps.
    - intros mask I. apply filter_In. split; [exact I|].
      cbn [fst]. apply negb_true_iff. now apply Z.eqb_neq. }
  destruct (Z_lt_le_dec 0 (rd_size (r_read e))) as [S|S].
  - destruct (is_quit (r_read e)) eqn:Q.
    + unfold exec. now rewrite (handle_event_drop _ _ _ T L (or_intror Q)).
    + unfold exec. rewrite (handle_event_payload _ _ _ T L S Q).
      unfold kept. cbn. repeat split; auto.
  - unfold exec. now rewrite (handle_event_drop _ _ _ T L (or_introl S)).
Qed.

Lemma for_each_kept epollfd rs st c :
  ~ In c (map (fun r => data_fd (r_event r)) rs) ->
  kept c st (exec (for_each rs (handle_event epollfd)) st).
Proof.
  revert st. induction rs as [|r rs IH]; intros st N.
  - apply kept_refl.
  - rewrite for_each_cons. cbn [map In] in N.
    eapply kept_trans; [apply handle_event_kept | apply IH]; intuition.
Qed.

(** X20.  Entries for other descriptors do not disconnect a client: over
    any run of the loop in which a descriptor is never reported, the
    descriptor stays open if it was open, stays in the registry if it was
    there, and stays armed if it was armed. *)
Theorem unreported_descriptor_is_kept epollfd script st c :
  ~ In c (reported script) ->
  (In c (open_fds (os st)) ->
   In c (open_fds (os (exec (event_worker_loop epollfd script) st))))
  /\ (In c (client_fd_list (self st)) ->
      In c (client_fd_list (self (exec (event_worker_loop epollfd script) st))))
  /\ (forall mask,
        In (c, mask) (interest (os st)) ->
        In (c, mask)
           (interest (os (exec (event_worker_loop epollfd script) st)))).
Proof.
  change (~ In c (reported script) ->
          kept c st (exec (event_worker_loop epollfd script) st)).
  revert st. induction script as [|b script IH]; intros st N;
    unfold exec; cbn [event_worker_loop];
    destruct (isRunning (self st)); cbn [negb snd]; try apply kept_refl.
  cbn [reported flat_map] in N. rewrite in_app_iff in N.
  eapply kept_trans; [|apply IH; tauto].
  rewrite event_worker_iteration_eq.
  eapply kept_trans; [|apply for_each_kept].
  - unfold sys_epoll_wait, kept. cbn. repeat split; auto.
  - intros I. apply N. left.
    apply in_map_iff in I. destruct I as (r & <- & Hr).
    apply (in_map (fun r => data_fd (r_event r))).
    rewrite <- (firstn_skipn (Z.to_nat tcp_epoll_max_events) (b_ready b)).
    apply in_or_app. now left.
Qed.

(** ** The registry while no entry fails the mask test *)

Lemma erase_first_NoDup fd l : NoDup l -> NoDup (erase_first fd l).
Proof.
  induction 1 as [|x l N ND IH]; simpl; [constructor|].
  destruct (x =? fd); [exact ND|]. constructor; [|exact IH].
  intros I. apply N. now apply (erase_first_incl fd).
Qed.

Lemma NoDup_snoc (x : Z) l : NoDup l -> ~ In x l -> NoDup (l ++ [x]).
Proof.
  intros ND N. induction ND as [|y l M ND IH]; simpl.
  - constructor; [tauto | constructor].
  - constructor.
    + rewrite in_app_iff. intros [I|[I|[]]]; [now apply M|].
      subst. apply N. now left.
    + apply IH. intros I. apply N. now right.
Qed.

(** Closing a descriptor that is not in the registry, or erasing the one
    that is closed, keeps the members ready. *)
Lemma registry_ready_after_close fd s' st :
  registry_ready st ->
  NoDup (client_fd_list s') ->
  incl (client_fd_list s') (client_fd_list (self st)) ->
  ~ In fd (client_fd_list s') ->
  forall k, open_fds k = open_fds (os st) ->
            nonblocking k = nonblocking (os st) ->
            interest k = interest (os st) ->
  registry_ready (snd (sys_close fd (mkState s' k))).
Proof.
  intros (ND & R) ND' I N k Eo En Ei. rewrite sys_close_spec.
  split; [exact ND'|]. cbn [snd self os].
  intros c Hc. assert (c <> fd) by congruence.
  destruct (R c (I c Hc)) as (A & B & C).
  unfold member_ready. cbn. rewrite Eo, En, Ei. repeat split.
  - apply in_drop. now split.
  - apply in_drop. now split.
  - apply filter_In. split; [exact C|].
    cbn [fst]. apply negb_true_iff. now apply Z.eqb_neq.
Qed.

Lemma handle_event_ready epollfd e st :
  (is_terminal (r_event e) = true ->
   ~ In (data_fd (r_event e)) (client_fd_list (self st))) ->
  registry_ready st ->
  registry_ready (exec (handle_event epollfd e) st).
Proof.
  intros NT RR. pose proof RR as (ND & R).
  destruct (is_terminal (r_event e)) eqn:T.
  { unfold exec. rewrite handle_event_terminal by assumption.
    destruct st as [s k].
    apply (registry_ready_after_close _ s (mkState s k)); auto.
    apply incl_refl. }
  destruct (Z.eq_dec (socketfd (self st)) (data_fd (r_event e))) as [L|L].
  { pose proof (lowest_free_fresh (open_fds (os st))) as FR.
    assert (FN : forall c, In c (client_fd_list (self st)) ->
                           c <> lowest_free (open_fds (os st))).
    { intros c I E. apply FR. rewrite <- E. now apply (R c I). }
    unfold exec. rewrite (handle_event_listener _ _ _ T L).
    accept_cases st.
    all: try destruct (lowest_free (open_fds (os st)) >? 0).
    all: cbn [snd fst].
    all: unfold registry_ready, member_ready;
      cbn [self os log_all set_open set_backlog set_nonblocking set_interest
           set_client_fd_list set_event client_fd_list open_fds nonblocking
           interest].
    all: split;
      [ first [ exact ND
              | apply NoDup_snoc;
                [exact ND | intros I; now apply (FN _ I)] ]
      | ].
    all: intros c I; try (apply in_app_iff in I; destruct I as [I|[<-|[]]]).
    all: try (destruct (R c I) as (A & B & C); pose proof (FN c I);
              repeat split;
              first [ assumption
                    | right; assumption
                    | apply in_or_app; left; assumption
                    | right; apply in_drop; split; assumption ]).
    repeat split; [now left | now left | apply in_or_app; right; now left]. }
  assert (D : registry_ready
                (snd (drop_client (data_fd (r_event e))
                        (mkState (self st)
                           (log (Read (data_fd (r_event e))
                                      (rd_size (r_read e))) (os st)))))).
  { unfold drop_client, bind, upd_self. cbn [self os].
    apply (registry_ready_after_close _ _ st); auto.
    - apply erase_first_NoDup, ND.
    - apply erase_first_incl.
    - now apply erase_first_NoDup_out. }
  destruct (Z_lt_le_dec 0 (rd_size (r_read e))) as [S|S].
  - destruct (is_quit (r_read e)) eqn:Q.
    + unfold exec. now rewrite (handle_event_drop _ _ _ T L (or_intror Q)).
    + unfold exec. rewrite (handle_event_payload _ _ _ T L S Q). exact RR.
  - unfold exec. now rewrite (handle_event_drop _ _ _ T L (or_introl S)).
Qed.

Lemma for_each_ready epollfd rs st :
  (forall r, In r rs -> is_terminal (r_event r) = false) ->
  registry_ready st ->
  registry_ready (exec (for_each rs (handle_event epollfd)) st).
Proof.
  revert st. induction rs as [|r rs IH]; intros st A RR; [exact RR|].
  rewrite for_each_cons. apply IH; [intros x I; apply A; now right|].
  apply handle_event_ready; [|exact RR].
  intros T. rewrite (A r) in T by now left. discriminate T.
Qed.

(** X21.  While no entry fails the mask test, the registry is what it
    should be at every loop boundary: if it lists no descriptor twice and
    all its members are open, non-blocking and armed with the full mask
    before a run of the loop over batches whose entries all pass the test,
    the same holds after the run. *)
Theorem registry_stays_ready epollfd script st :
  all_readable script ->
  registry_ready st ->
  registry_ready (exec (event_worker_loop epollfd script) st).
Proof.
  revert st. induction script as [|b script IH]; intros st A RR;
    unfold exec; cbn [event_worker_loop];
    destruct (isRunning (self st)); cbn [negb snd]; try exact RR.
  apply IH.
  { intros b' r Hb Hr. apply (A b' r); [now right | exact Hr]. }
  rewrite event_worker_iteration_eq. apply for_each_ready.
  - intros r Hr. apply (A b r); [now left|].
    rewrite <- (firstn_skipn (Z.to_nat tcp_epoll_max_events) (b_ready b)).
    apply in_or_app. now left.
  - unfold sys_epoll_wait. destruct RR as (ND & R). split; [exact ND|].
    intros c I. destruct (R c I) as (X & Y & Z). repeat split; assumption.
Qed.

(** X22.  The loop is left exactly when the running flag is read false,
    and nothing the worker does changes the flag: a run of the loop over a
    script reports that it left the loop if and only if the flag was
    false on entry, and in that case it made no call at all. *)
Theorem loop_is_left_only_by_flag epollfd script st :
  eval (event_worker_loop epollfd script) st = negb (isRunning (self st))
  /\ isRunning (self (exec (event_worker_loop epollfd script) st))
     = isRunning (self st)
  /\ (isRunning (self st) = false ->
      exec (event_worker_loop epollfd script) st = st).
Proof.
  destruct (event_worker_loop_grows epollfd script st) as (_ & _ & _ & R & _).
  split; [|split; [exact R|]].
  - destruct (isRunning (self st)) eqn:I.
    + now apply event_worker_loop_stays.
    + unfold eval. destruct script; cbn [event_worker_loop]; now rewrite I.
  - intros I. unfold exec.
    destruct script; cbn [event_worker_loop]; now rewrite I.
Qed.

Lemma event_worker_from_stopped epollfd st :
  isRunning (self st) = false ->
  event_worker_from epollfd [] st
  = (true, exec (event_worker_shutdown epollfd) st).
Proof.
  intros R. unfold event_worker_from, bind.
  cbn [event_worker_loop]. rewrite R. cbn [negb].
  unfold exec. destruct (event_worker_shutdown epollfd st) as [[] st'].
  reflexivity.
Qed.

Lemma worker_finishing_eq epollfd b st :
  isRunning (self st) = false ->
  exec (worker_finishing epollfd b) st
  = exec (event_worker_shutdown epollfd)
         (exec (event_worker_iteration epollfd b) st).
Proof.
  intros R0.
  destruct (event_worker_iteration_grows epollfd b st) as (_ & _ & _ & R & _).
  rewrite R0 in R. unfold exec in *. unfold worker_finishing, bind.
  destruct (event_worker_iteration epollfd b st) as [[] st1].
  cbn [snd] in *. rewrite (event_worker_from_stopped epollfd st1 R).
  reflexivity.
Qed.

Lemma stop_event_worker_joinable wr st :
  joinable (epoll_worker (self st)) = true ->
  stop_event_worker wr st
  = (true,
     mkState (set_epoll_worker Joined (self (exec wr (stop_requested st))))
             (log (ThreadJoin true) (os (exec wr (stop_requested st))))).
Proof.
  intros J.
  unfold stop_event_worker, thread_join, stop_requested, exec, bind,
    upd_self, get_self, upd_os, ret.
  cbn [self os set_isRunning epoll_worker snd]. rewrite J.
  destruct (wr _) as [[] st2]. reflexivity.
Qed.

(** X23.  Stopping a started worker.  [stop_event_worker] clears the
    running flag while the worker is inside [epoll_wait]; the worker
    handles the batch that call returns, as it would any other, then reads
    the flag, leaves the loop, publishes offline and closes the listener
    and the epoll descriptor, and the join returns.  After the calls of
    that batch exactly these three follow; the registry is the one the
    batch left, and nothing in the batch sets the flag again. *)
Theorem stop_lets_worker_finish_batch epollfd b st :
  joinable (epoll_worker (self st)) = true ->
  eval (stop_event_worker (worker_finishing epollfd b)) st = true
  /\ emitted (stop_event_worker (worker_finishing epollfd b)) st
     = emitted (event_worker_iteration epollfd b) (stop_requested st)
       ++ [Close (socketfd (self st)); Close epollfd; ThreadJoin true]
  /\ isRunning (self (exec (stop_event_worker (worker_finishing epollfd b)) st))
     = false
  /\ worker_state
       (self (exec (stop_event_worker (worker_finishing epollfd b)) st))
     = false
  /\ epoll_worker
       (self (exec (stop_event_worker (worker_finishing epollfd b)) st))
     = Joined
  /\ client_fd_list
       (self (exec (stop_event_worker (worker_finishing epollfd b)) st))
     = client_fd_list
         (self (exec (event_worker_iteration epollfd b) (stop_requested st))).
Proof.
  intros J.
  destruct (event_worker_iteration_grows epollfd b (stop_requested st))
    as (es & T & _ & R & F).
  unfold emitted at 2. rewrite (since_app _ _ _ T).
  unfold emitted, eval, exec at 1 2 3 4 5.
  rewrite (stop_event_worker_joinable _ _ J).
  rewrite worker_finishing_eq by reflexivity.
  set (st1 := exec (event_worker_iteration epollfd b) (stop_requested st))
    in *.
  change (socketfd (self (stop_requested st))) with (socketfd (self st)) in F.
  change (trace (os (stop_requested st))) with (trace (os st)) in T.
  change (isRunning (self (stop_requested st))) with false in R.
  clearbody st1.
  unfold exec at 1 2 3 4 5 6.
  unfold event_worker_shutdown, bind, upd_self, get_self, ret.
  rewrite !sys_close_spec.
  cbn [fst snd self os set_worker_state set_epoll_worker set_isRunning
       socketfd isRunning worker_state epoll_worker client_fd_list log trace
       set_interest set_nonblocking set_open].
  rewrite F.
  split; [reflexivity|]. split; [|split; [|repeat split]].
  - apply since_app.
    cbn [trace os log set_interest set_nonblocking set_open].
    rewrite T. now rewrite <- !app_assoc.
  - exact R.
Qed.

(** ** The further theorems on concrete runs *)

(** [create_and_bind_result] at process start. *)
Lemma create_and_bind_result_witness :
  ~ In (-1) (open_fds (os (initial no_faults)))
  /\ eval (create_and_bind "0.0.0.0" 9090) (initial no_faults) = 0
  /\ socketfd (self (exec (create_and_bind "0.0.0.0" 9090) (initial no_faults)))
     = 3.
Proof.
  assert (N : ~ In (-1) (open_fds (os (initial no_faults))))
    by (vm_compute; intuition discriminate).
  split; [exact N|].
  destruct (create_and_bind_result "0.0.0.0" 9090 _ N) as (_ & I & P).
  assert (E : eval (create_and_bind "0.0.0.0" 9090) (initial no_faults) = 0).
  { apply I. repeat split; try reflexivity.
    - vm_compute. discriminate.
    - now right. }
  split; [exact E|].
  destruct (P E) as (F & _). rewrite F. vm_compute. reflexivity.
Defined.

(** [create_and_bind_closes_on_bind_failure] when the port is taken. *)
Lemma create_and_bind_closes_on_bind_failure_witness :
  bind_ret (env (os (initial bind_refused))) <> 0
  /\ open_fds (os (exec (create_and_bind "0.0.0.0" 9090)
                        (initial bind_refused))) = [0; 1; 2].
Proof.
  assert (SF : socket_fails (env (os (initial bind_refused))) = false)
    by reflexivity.
  assert (Z0 : lowest_free (open_fds (os (initial bind_refused))) <> 0)
    by (vm_compute; discriminate).
  assert (H : "0.0.0.0"%string = "INADDR_ANY"%string
              \/ resolves (env (os (initial bind_refused))) = true)
    by (right; reflexivity).
  assert (B : bind_ret (env (os (initial bind_refused))) <> 0)
    by (vm_compute; discriminate).
  split; [exact B|].
  destruct (create_and_bind_closes_on_bind_failure "0.0.0.0" 9090 _ SF Z0 H B)
    as (_ & O & _).
  rewrite O. reflexivity.
Defined.

(** [create_and_bind_leaves_socket_on_resolve_failure] with the resolver
    down. *)
Lemma create_and_bind_leaves_socket_on_resolve_failure_witness :
  resolves (env (os (initial resolver_down))) = false
  /\ open_fds (os (exec (create_and_bind "0.0.0.0" 9090)
                        (initial resolver_down))) = [3; 0; 1; 2].
Proof.
  assert (SF : socket_fails (env (os (initial resolver_down))) = false)
    by reflexivity.
  assert (Z0 : lowest_free (open_fds (os (initial resolver_down))) <> 0)
    by (vm_compute; discriminate).
  assert (HN : "0.0.0.0"%string <> "INADDR_ANY"%string) by discriminate.
  assert (R : resolves (env (os (initial resolver_down))) = false)
    by reflexivity.
  split; [exact R|].
  destruct (create_and_bind_leaves_socket_on_resolve_failure
              "0.0.0.0" 9090 _ SF Z0 HN R) as (_ & _ & O & _).
  rewrite O. vm_compute. reflexivity.
Defined.

(** [create_and_bind_rejects_descriptor_zero] in a process started without
    standard input. *)
Lemma create_and_bind_rejects_descriptor_zero_witness :
  ~ In 0 (open_fds (os (no_stdin no_faults)))
  /\ eval (create_and_bind "0.0.0.0" 9090) (no_stdin no_faults) = -1
  /\ emitted (create_and_bind "0.0.0.0" 9090) (no_stdin no_faults)
     = [Socket 0].
Proof.
  assert (SF : socket_fails (env (os (no_stdin no_faults))) = false)
    by reflexivity.
  assert (N0 : ~ In 0 (open_fds (os (no_stdin no_faults))))
    by (vm_compute; intuition discriminate).
  split; [exact N0|].
  destruct (create_and_bind_rejects_descriptor_zero "0.0.0.0" 9090 _ SF N0)
    as (E & T & _).
  split; assumption.
Defined.

(** [create_and_bind_goes_on_after_socket_failure] when [socket] fails. *)
Lemma create_and_bind_goes_on_after_socket_failure_witness :
  socket_fails (env (os (initial socket_refused))) = true
  /\ bound (emitted (create_and_bind "0.0.0.0" 9090)
                    (initial socket_refused)) = [-1].
Proof.
  assert (SF : socket_fails (env (os (initial socket_refused))) = true)
    by reflexivity.
  assert (N : ~ In (-1) (open_fds (os (initial socket_refused))))
    by (vm_compute; intuition discriminate).
  split; [exact SF|].
  destruct (create_and_bind_goes_on_after_socket_failure
              "0.0.0.0" 9090 _ SF N) as (_ & _ & _ & B & _).
  apply B. right. reflexivity.
Defined.

(** [accepted_descriptor_zero_is_not_registered] with descriptor 0 free. *)
Lemma accepted_descriptor_zero_is_not_registered_witness :
  ~ In 0 (open_fds (os stdin_closed))
  /\ accepted (emitted (handle_event 4 (signalled 3 EPOLLIN)) stdin_closed)
     = [0]
  /\ client_fd_list (self (exec (handle_event 4 (signalled 3 EPOLLIN))
                                stdin_closed)) = [].
Proof.
  assert (T : is_terminal (r_event (signalled 3 EPOLLIN)) = false)
    by reflexivity.
  assert (L : socketfd (self stdin_closed)
              = data_fd (r_event (signalled 3 EPOLLIN)))
    by (vm_compute; reflexivity).
  assert (O : In (socketfd (self stdin_closed)) (open_fds (os stdin_closed)))
    by (vm_compute; intuition).
  assert (B : backlog (os stdin_closed) = Established :: [])
    by (vm_compute; reflexivity).
  assert (N0 : ~ In 0 (open_fds (os stdin_closed)))
    by (vm_compute; intuition discriminate).
  assert (G : ~ In 0 (fcntl_getfl_err (env (os stdin_closed))))
    by (vm_compute; intuition).
  assert (S : ~ In 0 (fcntl_setfl_err (env (os stdin_closed))))
    by (vm_compute; intuition).
  assert (C : ~ In 0 (epoll_ctl_err (env (os stdin_closed))))
    by (vm_compute; intuition).
  split; [exact N0|].
  destruct (accepted_descriptor_zero_is_not_registered 4 _ _ _ T L O B N0 G S C)
    as (A & _ & _ & _ & R).
  split; [exact A|]. rewrite R. vm_compute. reflexivity.
Defined.

(** [read_eof_or_error_drops_client] on a client whose read returns 0. *)
Lemma read_eof_or_error_drops_client_witness :
  rd_size (r_read (signalled 5 EPOLLIN)) <= 0
  /\ emitted (handle_event 4 (signalled 5 EPOLLIN)) (up no_faults [connect])
     = [Read 5 0; Close 5].
Proof.
  assert (T : is_terminal (r_event (signalled 5 EPOLLIN)) = false)
    by reflexivity.
  assert (L : socketfd (self (up no_faults [connect]))
              <> data_fd (r_event (signalled 5 EPOLLIN)))
    by (vm_compute; discriminate).
  assert (S : rd_size (r_read (signalled 5 EPOLLIN)) <= 0)
    by (vm_compute; discriminate).
  split; [exact S|].
  exact (proj1 (read_eof_or_error_drops_client 4 _ _ T L S)).
Defined.

(** [loop_touches_only_reported] on a client that hangs up. *)
Lemma loop_touches_only_reported_witness :
  In 5 (closes (emitted (event_worker_loop 4 [reset5])
                        (up no_faults [connect])))
  /\ In 5 (reported [reset5]).
Proof.
  assert (C : In 5 (closes (emitted (event_worker_loop 4 [reset5])
                                    (up no_faults [connect]))))
    by (vm_compute; intuition).
  split; [exact C|].
  exact (loop_touches_only_reported 4 [reset5] _ 5 (or_introl C)).
Defined.

(** [registry_entries_stay_positive] over three connections. *)
Lemma registry_entries_stay_positive_witness :
  Forall (fun c => 0 < c)
         (client_fd_list
            (self (exec (event_worker_loop 4 [connect; connect; connect])
                        (up no_faults [])))).
Proof.
  apply registry_entries_stay_positive. vm_compute. constructor.
Defined.

(** [listener_stays_out_of_registry] over three connections. *)
Lemma listener_stays_out_of_registry_witness :
  ~ In (socketfd (self (exec (event_worker_loop 4 [connect; connect; connect])
                             (up no_faults []))))
       (client_fd_list
          (self (exec (event_worker_loop 4 [connect; connect; connect])
                      (up no_faults [])))).
Proof.
  apply listener_stays_out_of_registry. vm_compute. intuition.
Defined.

(** [unregister_removes_one_entry] on a client that quits. *)
Lemma unregister_removes_one_entry_witness :
  is_quit (r_read (incoming 5 "quitXY")) = true
  /\ closes (emitted (handle_event 4 (incoming 5 "quitXY"))
                     (up no_faults [connect; connect])) = [5].
Proof.
  assert (T : is_terminal (r_event (incoming 5 "quitXY")) = false)
    by reflexivity.
  assert (L : socketfd (self (up no_faults [connect; connect]))
              <> data_fd (r_event (incoming 5 "quitXY")))
    by (vm_compute; discriminate).
  assert (Q : is_quit (r_read (incoming 5 "quitXY")) = true) by reflexivity.
  split; [exact Q|].
  destruct (unregister_removes_one_entry 4 _ _ T L (or_intror Q))
    as (_ & _ & _ & _ & C).
  exact C.
Defined.

(** [dropped_client_gets_no_more]: of three clients the first quits, then
    the second sends. *)
Lemma dropped_client_gets_no_more_witness :
  NoDup (client_fd_list (self (up no_faults [connect; connect; connect])))
  /\ recipients
       (emitted (handle_event 4 (incoming 6 "x"))
                (exec (handle_event 4 (incoming 5 "quitXY"))
                      (up no_faults [connect; connect; connect])))
     = [7].
Proof.
  assert (ND : NoDup (client_fd_list
                        (self (up no_faults [connect; connect; connect])))).
  { vm_compute. repeat constructor; cbn; intuition discriminate. }
  assert (T1 : is_terminal (r_event (incoming 5 "quitXY")) = false)
    by reflexivity.
  assert (L1 : socketfd (self (up no_faults [connect; connect; connect]))
               <> data_fd (r_event (incoming 5 "quitXY")))
    by (vm_compute; discriminate).
  assert (Q1 : is_quit (r_read (incoming 5 "quitXY")) = true) by reflexivity.
  assert (T2 : is_terminal (r_event (incoming 6 "x")) = false)
    by reflexivity.
  assert (L2 : socketfd (self (up no_faults [connect; connect; connect]))
               <> data_fd (r_event (incoming 6 "x")))
    by (vm_compute; discriminate).
  assert (S2 : 0 < rd_size (r_read (incoming 6 "x"))) by reflexivity.
  assert (Q2 : is_quit (r_read (incoming 6 "x")) = false) by reflexivity.
  split; [exact ND|].
  destruct (dropped_client_gets_no_more 4 _ _ _ ND T1 L1 (or_intror Q1)
              T2 L2 S2 Q2) as (_ & R).
  rewrite R. vm_compute. reflexivity.
Defined.

(** [closed_client_is_still_written_to]: client 5 is reset, then client 6
    sends. *)
Lemma closed_client_is_still_written_to_witness :
  In 5 (client_fd_list (self (up no_faults [connect; connect])))
  /\ In (Write 5 ["x"%char])
        (emitted (handle_event 4 (incoming 6 "x"))
                 (exec (handle_event 4 (signalled 5 (Z.lor EPOLLERR EPOLLHUP)))
                       (up no_faults [connect; connect]))).
Proof.
  assert (T1 : is_terminal (r_event (signalled 5 (Z.lor EPOLLERR EPOLLHUP)))
               = true) by reflexivity.
  assert (I : In (data_fd (r_event (signalled 5 (Z.lor EPOLLERR EPOLLHUP))))
                 (client_fd_list (self (up no_faults [connect; connect]))))
    by (vm_compute; intuition).
  assert (T2 : is_terminal (r_event (incoming 6 "x")) = false)
    by reflexivity.
  assert (L2 : socketfd (self (up no_faults [connect; connect]))
               <> data_fd (r_event (incoming 6 "x")))
    by (vm_compute; discriminate).
  assert (S2 : 0 < rd_size (r_read (incoming 6 "x"))) by reflexivity.
  assert (Q2 : is_quit (r_read (incoming 6 "x")) = false) by reflexivity.
  assert (N : data_fd (r_event (incoming 6 "x"))
              <> data_fd (r_event (signalled 5 (Z.lor EPOLLERR EPOLLHUP))))
    by (vm_compute; discriminate).
  split; [exact I|].
  exact (proj2 (closed_client_is_still_written_to 4 _ _ _ T1 I T2 L2 S2 Q2 N)).
Defined.

(** [main_exit_code] when the port is taken: no exit code. *)
Lemma main_exit_code_witness :
  epoll_worker (self (initial bind_refused)) = NotAThread
  /\ eval (main []) (initial bind_refused) = None.
Proof.
  assert (NT : epoll_worker (self (initial bind_refused)) = NotAThread)
    by reflexivity.
  split; [exact NT|].
  destruct (main_exit_code [] _ NT) as (_ & N & _).
  apply N. vm_compute. discriminate.
Defined.

(** [unreported_descriptor_is_kept]: client 6 while client 5 is reset. *)
Lemma unreported_descriptor_is_kept_witness :
  ~ In 6 (reported [reset5])
  /\ In 6 (client_fd_list
             (self (exec (event_worker_loop 4 [reset5])
                         (up no_faults [connect; connect])))).
Proof.
  assert (N : ~ In 6 (reported [reset5]))
    by (vm_compute; intuition discriminate).
  split; [exact N|].
  destruct (unreported_descriptor_is_kept 4 [reset5]
              (up no_faults [connect; connect]) 6 N) as (_ & R & _).
  apply R. vm_compute. intuition.
Defined.

(** [registry_stays_ready] over three connections and a message. *)
Lemma registry_stays_ready_witness :
  registry_ready
    (exec (event_worker_loop 4 [connect; connect;
                                mkBatch [] [incoming 5 "x"]])
          (up no_faults [])).
Proof.
  apply registry_stays_ready.
  - intros b r Hb Hr. cbn in Hb.
    destruct Hb as [<-|[<-|[<-|[]]]]; cbn in Hr;
      destruct Hr as [<-|[]]; reflexivity.
  - split; [vm_compute; constructor|].
    intros c I. vm_compute in I. destruct I.
Defined.

(** [stop_lets_worker_finish_batch]: a connection arrives while the server
    is being stopped. *)
Lemma stop_lets_worker_finish_batch_witness :
  joinable (epoll_worker (self (up no_faults []))) = true
  /\ emitted (stop_event_worker (worker_finishing 4 connect))
             (up no_faults [])
     = [EpollWait 4 1; Accept 3 5; FcntlGetfl 5 2; FcntlSetfl 5 2050 0;
        EpollCtlAdd 4 5 interest_mask 0; Close 3; Close 4; ThreadJoin true].
Proof.
  assert (J : joinable (epoll_worker (self (up no_faults []))) = true)
    by (vm_compute; reflexivity).
  split; [exact J|].
  destruct (stop_lets_worker_finish_batch 4 connect _ J) as (_ & E & _).
  rewrite E. vm_compute. reflexivity.
Defined.
